(** * A shallow embedding of the SRM-AI query-resolution core

    This development models, function by function, the Python sources of the
    SRM-AI chatbot: the knowledge graph ([knowledge_graph.py]), the NLU
    helpers ([nlu_module.py]), the resolution engine of
    [enhanced_chatbot.py], the admission classifier ([admission_handler.py])
    and the session context store that [enhanced_chatbot.py] imports, and
    proves properties of them.

    Conventions.
    - Python values are the inductive [PyVal]; a Python [dict] is an
      association list with Python's update semantics ([dict_set] replaces
      the value of an existing key in place and appends a new key at the end).
    - Python floats are modelled by rationals [Q]; the only comparisons the
      code makes are against the constants 0.5 and 0.6.
    - Strings are [String.string]; [str.lower] and the character classes of
      [re] are modelled on ASCII text.
    - Exceptions are the sum type [Exc]: [inl e] is a raised exception. *)

From Stdlib Require Import String Ascii List Bool Arith Lia ZArith QArith.
From Stdlib Require Import Sorted Permutation.
Import ListNotations.
Open Scope string_scope.
Set Warnings "-register-all".
Open Scope list_scope.

(* ------------------------------------------------------------------ *)
(** ** Python values, exceptions and dictionaries *)

Inductive PyVal : Type :=
| PNone : PyVal
| PBool : bool -> PyVal
| PNum : Q -> PyVal
| PStr : string -> PyVal
| PList : list PyVal -> PyVal
| PDict : list (string * PyVal) -> PyVal.

Inductive PyExc : Type :=
| TypeError : string -> PyExc
| KeyError : string -> PyExc
| IndexError : PyExc
| ValueError : string -> PyExc.

Definition Exc (A : Type) : Type := (PyExc + A)%type.
Definition ret {A} (a : A) : Exc A := inr a.
Definition raise {A} (e : PyExc) : Exc A := inl e.
Definition bind {A B} (m : Exc A) (f : A -> Exc B) : Exc B :=
  match m with inl e => inl e | inr a => f a end.
Notation "x <- m ;; k" := (bind m (fun x => k))
  (at level 61, m at next level, right associativity).

(** A Python dict with string keys. *)
Definition Dict (V : Type) : Type := list (string * V).

Fixpoint dict_get {V} (k : string) (d : Dict V) : option V :=
  match d with
  | [] => None
  | (k', v) :: d' => if String.eqb k k' then Some v else dict_get k d'
  end.

Definition dict_mem {V} (k : string) (d : Dict V) : bool :=
  match dict_get k d with Some _ => true | None => false end.

(** [d[k] = v]: replace in place, or append a new key. *)
Fixpoint dict_set {V} (k : string) (v : V) (d : Dict V) : Dict V :=
  match d with
  | [] => [(k, v)]
  | (k', v') :: d' =>
      if String.eqb k k' then (k', v) :: d' else (k', v') :: dict_set k v d'
  end.

(** [d.update(kvs)]: the pairs of [kvs] are set in order. *)
Fixpoint dict_update {V} (d : Dict V) (kvs : Dict V) : Dict V :=
  match kvs with
  | [] => d
  | (k, v) :: kvs' => dict_update (dict_set k v d) kvs'
  end.

(** Python [==] on values ([True == 1], dicts compared key-wise). *)
Fixpoint py_eqb (a b : PyVal) : bool :=
  match a, b with
  | PNone, PNone => true
  | PBool x, PBool y => Bool.eqb x y
  | PNum x, PNum y => Qeq_bool x y
  | PBool x, PNum y => Qeq_bool (if x then 1 else 0) y
  | PNum x, PBool y => Qeq_bool x (if y then 1 else 0)
  | PStr x, PStr y => String.eqb x y
  | PList xs, PList ys =>
      (fix go (xs ys : list PyVal) : bool :=
         match xs, ys with
         | [], [] => true
         | x :: xs', y :: ys' => py_eqb x y && go xs' ys'
         | _, _ => false
         end) xs ys
  | PDict xs, PDict ys =>
      Nat.eqb (length xs) (length ys) &&
      (fix go (xs : list (string * PyVal)) : bool :=
         match xs with
         | [] => true
         | (k, v) :: xs' =>
             match dict_get k ys with
             | Some w => py_eqb v w
             | None => false
             end && go xs'
         end) xs
  | _, _ => false
  end.

(* ------------------------------------------------------------------ *)
(** ** Strings: [str.lower] and the [in] operator on ASCII text *)

Definition lower_ascii (c : ascii) : ascii :=
  let n := nat_of_ascii c in
  if (65 <=? n)%nat && (n <=? 90)%nat then ascii_of_nat (n + 32)%nat else c.

Fixpoint str_lower (s : string) : string :=
  match s with
  | EmptyString => EmptyString
  | String c s' => String (lower_ascii c) (str_lower s')
  end.

(** [q in s]: [q] is a substring of [s]. *)
Fixpoint str_in (q s : string) : bool :=
  match s with
  | EmptyString => String.eqb q EmptyString
  | String _ s' => String.prefix q s || str_in q s'
  end.

(** [any(w in s for w in ws)] *)
Definition any_in (ws : list string) (s : string) : bool :=
  existsb (fun w => str_in w s) ws.

(** Python's [str(v)]: a string is itself, any other value its [repr]. *)
Definition py_str (py_repr : PyVal -> string) (v : PyVal) : string :=
  match v with PStr s => s | _ => py_repr v end.

(** [s.startswith(p)] *)
Definition startswith (s p : string) : bool := String.prefix p s.

(* ------------------------------------------------------------------ *)
(** ** Knowledge graph ([knowledge_graph.py]) *)

Module KG.

(** The node store of the networkx [MultiDiGraph]: node ids with their
    attribute dicts, in insertion order (networkx keeps nodes in a dict).
    Edges are labelled by their [relationship] attribute. *)
Record Graph : Type := mkGraph {
  g_nodes : Dict (Dict PyVal);
  g_edges : list (string * string * Dict PyVal)
}.

Definition empty_graph : Graph := mkGraph [] [].

(** [networkx.Graph.add_node(n, **attr)]: a new node gets a fresh
    attribute dict updated with [attr]; an existing node keeps its place and
    its attribute dict is updated with [attr]. *)
Definition add_node (g : Graph) (n : string) (attr : Dict PyVal) : Graph :=
  match dict_get n (g_nodes g) with
  | Some d => mkGraph (dict_set n (dict_update d attr) (g_nodes g)) (g_edges g)
  | None => mkGraph (g_nodes g ++ [(n, dict_update [] attr)]) (g_edges g)
  end.

(** Keyword names bound by [add_node(self, node_for_adding, **attr)] and by
    the explicit [type=] keyword of [add_entity]: passing one of them again
    inside [**attributes] raises [TypeError] (multiple values for argument). *)
Definition reserved_kwargs : list string := ["self"; "node_for_adding"; "type"].

(** [SRMKnowledgeGraph.add_entity] (line 182); [attributes=None] is the
    empty list.
    [self.graph.add_node(entity_id, type=entity_type, **(attributes or {}))] *)
Definition add_entity (g : Graph) (entity_id entity_type : string)
    (attributes : Dict PyVal) : Exc Graph :=
  if existsb (fun k => existsb (String.eqb k) reserved_kwargs) (map fst attributes)
  then raise (TypeError "add_node() got multiple values for a keyword argument")
  else ret (add_node g entity_id (("type", PStr entity_type) :: attributes)).

(** The record [{'id': node_id, **attrs}] built by [query] and
    [search_by_text]. *)
Definition entity_view (node : string * Dict PyVal) : Dict PyVal :=
  dict_update [("id", PStr (fst node))] (snd node).

(** [all(key in attrs and attrs[key] == value for key, value in filters.items())] *)
Definition matches_filters (attrs : Dict PyVal) (filters : Dict PyVal) : bool :=
  forallb (fun kv => match dict_get (fst kv) attrs with
                     | Some a => py_eqb a (snd kv)
                     | None => false
                     end) filters.

(** The test of the loop body of [query]: the [type] check, then the
    filters when [filters] is non-empty. *)
Definition query_selects (entity_type : string) (filters : Dict PyVal)
    (node : string * Dict PyVal) : bool :=
  let attrs := snd node in
  match dict_get "type" attrs with
  | Some tv =>
      if py_eqb tv (PStr entity_type) then
        match filters with
        | [] => true
        | _ => matches_filters attrs filters
        end
      else false
  | None => false
  end.

(** [SRMKnowledgeGraph.query] (lines 135-166); [filters=None] is [[]]. *)
Fixpoint query_loop (entity_type : string) (filters : Dict PyVal)
    (nodes : Dict (Dict PyVal)) : list (Dict PyVal) :=
  match nodes with
  | [] => []
  | node :: rest =>
      if query_selects entity_type filters node
      then entity_view node :: query_loop entity_type filters rest
      else query_loop entity_type filters rest
  end.

Definition query (g : Graph) (entity_type : string) (filters : Dict PyVal)
  : list (Dict PyVal) :=
  query_loop entity_type filters (g_nodes g).

Section Search.

(** Python's [repr()] of a value, which [str()] uses for every value that
    is not a string. None of the properties below depends on its text. *)
Variable py_repr : PyVal -> string.

(** The test on one attribute value in [search_by_text] (lines 205-214). *)
Definition value_matches (q : string) (value : PyVal) : bool :=
  match value with
  | PStr s => str_in q (str_lower s)
  | PList vs => existsb (fun v => str_in q (str_lower (py_str py_repr v))) vs
  | PDict kvs => existsb (fun kv => str_in q (str_lower (py_str py_repr (snd kv)))) kvs
  | _ => false
  end.

(** The loop over the attribute items: [True] when a [break] after an
    [append] is reached. *)
Fixpoint attrs_match (q : string) (attrs : Dict PyVal) : bool :=
  match attrs with
  | [] => false
  | (_, value) :: rest => if value_matches q value then true else attrs_match q rest
  end.

Fixpoint search_loop (q : string) (nodes : Dict (Dict PyVal)) : list (Dict PyVal) :=
  match nodes with
  | [] => []
  | (node_id, attrs) :: rest =>
      if str_in q (str_lower node_id) then
        entity_view (node_id, attrs) :: search_loop q rest     (* append; continue *)
      else if attrs_match q attrs then
        entity_view (node_id, attrs) :: search_loop q rest     (* append; break *)
      else search_loop q rest
  end.

(** [SRMKnowledgeGraph.search_by_text] (lines 190-216). *)
Definition search_by_text (g : Graph) (query : string) : list (Dict PyVal) :=
  search_loop (str_lower query) (g_nodes g).

(** The node-level test: the id matches, or one attribute value does. *)
Definition search_selects (q : string) (node : string * Dict PyVal) : bool :=
  str_in q (str_lower (fst node)) || attrs_match q (snd node).

End Search.

End KG.

(* ------------------------------------------------------------------ *)
(** ** NLU helpers ([nlu_module.py]) *)

Module NLU.

(** [\w] on ASCII: letters, digits and [_]. *)
Definition is_word_char (c : ascii) : bool :=
  let n := nat_of_ascii c in
  (((48 <=? n) && (n <=? 57)) || ((65 <=? n) && (n <=? 90)) ||
   ((97 <=? n) && (n <=? 122)) || (n =? 95))%nat.

(** [\s] and the separators of [str.split()] on ASCII: [\t\n\v\f\r],
    [\x1c]-[\x1f] and the space. *)
Definition is_space (c : ascii) : bool :=
  let n := nat_of_ascii c in
  (((9 <=? n) && (n <=? 13)) || ((28 <=? n) && (n <=? 32)))%nat.

(** [re.sub(r'[^\w\s?]', ' ', text)] *)
Fixpoint strip_special (s : string) : string :=
  match s with
  | EmptyString => EmptyString
  | String c s' =>
      let c' := if is_word_char c || is_space c || Ascii.eqb c "?"%char then c else " "%char in
      String c' (strip_special s')
  end.

(** The whitespace-separated segments of a string, empty ones included. *)
Fixpoint split_ws (s : string) : list string :=
  match s with
  | EmptyString => [EmptyString]
  | String c s' =>
      if is_space c then EmptyString :: split_ws s'
      else match split_ws s' with
           | w :: ws => String c w :: ws
           | [] => [String c EmptyString]
           end
  end.

(** [s.split()]: the non-empty segments. *)
Definition py_split (s : string) : list string :=
  filter (fun w => negb (String.eqb w EmptyString)) (split_ws s).

(** [NLUModule.preprocess_text] (lines 102-111). *)
Definition preprocess_text (text : string) : string :=
  String.concat " " (py_split (strip_special (str_lower text))).

Definition pronouns : list string :=
  ["it"; "this"; "that"; "they"; "these"; "those"; "there"].

Definition followup_phrases : list string :=
  ["what about"; "how about"; "tell me more"; "and"; "also"; "what else";
   "more information"].

Definition conjunctions : list string := ["and"; "but"; "or"; "so"].

(** [NLUModule.is_followup_question] (lines 154-177). The [context]
    argument is a Python dict; the body never reads it. *)
Definition is_followup_question (text : string) (context : Dict PyVal) : bool :=
  let text := str_lower text in
  let has_pronouns :=
    existsb (fun p => str_in (" " ++ p ++ " ") (" " ++ text ++ " ")) pronouns in
  let has_followup := any_in followup_phrases text in
  let starts_with_conjunction := existsb (startswith text) conjunctions in
  has_pronouns || has_followup || starts_with_conjunction.

(** The [is_followup] field of [NLUModule.analyze_query] (lines 194-221):
    [self.is_followup_question(processed_query, context or {})]. *)
Definition analysis_is_followup (query : string) (context : Dict PyVal) : bool :=
  is_followup_question (preprocess_text query) context.

(** [ORBAI._is_follow_up_question] ([orb_ai.py], lines 71-81), the sibling
    detector: [entities] are those of [classify_question], [last_entities]
    the previous ones kept in [self.context]. *)
Definition orb_is_follow_up_question (query : string) (entities last_entities : list string) : bool :=
  let query_lower := str_lower query in
  let has_pronouns :=
    existsb (fun p => existsb (String.eqb p) (py_split query_lower)) pronouns in
  let has_no_entities := match entities with [] => true | _ => false end in
  let has_previous_context := match last_entities with [] => false | _ => true end in
  has_pronouns || (has_no_entities && has_previous_context).

(** [all(...)]-style traversal of a list through a partial function. *)
Fixpoint omap_all {A B} (f : A -> option B) (l : list A) : option (list B) :=
  match l with
  | [] => Some []
  | x :: l' =>
      match f x, omap_all f l' with
      | Some y, Some ys => Some (y :: ys)
      | _, _ => None
      end
  end.

(** The slice [a[-k:]] of a Python sequence, for any integer [k]. *)
Definition slice_last {A} (k : Z) (l : list A) : list A :=
  let n := Z.of_nat (length l) in
  let start := (- k)%Z in
  let start := if (start <? 0)%Z then Z.max 0 (n + start) else Z.min start n in
  skipn (Z.to_nat start) l.

Section Ranker.

(** The cosine similarity between the embeddings of the query and of a
    candidate ([self.model.encode] and [cosine_similarity]); [None] when
    the embedding computation faults. *)
Variable cos_sim : string -> string -> option Q.

(** numpy's [ndarray.argsort()]: the indices of the scores in ascending
    order of score. *)
Variable argsort : list Q -> list nat.

(** [NLUModule.find_best_matches] (lines 238-257). Any exception inside the
    [try] (an embedding fault, an index out of range) gives [[]]. *)
Definition find_best_matches (query : string) (candidates : list string) (top_k : Z)
  : list (string * Q) :=
  match omap_all (cos_sim query) candidates with
  | None => []
  | Some similarities =>
      let top_indices := rev (slice_last top_k (argsort similarities)) in
      match omap_all (fun i => match nth_error candidates i, nth_error similarities i with
                               | Some c, Some s => Some (c, s)
                               | _, _ => None
                               end) top_indices with
      | Some r => r
      | None => []
      end
  end.

End Ranker.

(** A stable ascending argsort (insertion sort of the indices), which is
    what numpy's default sort does on the short arrays of the examples
    below (it switches to insertion sort under 16 elements). *)
Definition Qltb (x y : Q) : bool := negb (Qle_bool y x).

Fixpoint insert_index (key : nat -> Q) (i : nat) (l : list nat) : list nat :=
  match l with
  | [] => [i]
  | j :: l' => if Qltb (key i) (key j) then i :: l else j :: insert_index key i l'
  end.

Definition argsort_stable (scores : list Q) : list nat :=
  fold_left (fun acc i => insert_index (fun k => nth k scores 0) i acc)
            (seq 0 (length scores)) [].

End NLU.

(* ------------------------------------------------------------------ *)
(** ** Session context store (module [context_manager]) *)

Module Session.

(** One exchange, as [process_query] hands it to [update_context]. *)
Record ConversationTurn : Type := mkTurn {
  turn_query : string;
  turn_entities : list string;
  turn_intent : string;
  turn_response : Dict PyVal
}.

Record SessionContext : Type := mkContext {
  history : list ConversationTurn;
  current_entity : option string;
  current_intent : option string;
  referenced_entities : list string
}.

Definition empty_context : SessionContext := mkContext [] None None [].

(** The acceptance threshold of the resolution engine. *)
Definition acceptance_threshold : Q := 6 # 10.

(** The entity a response resolves: its ["entity"] with a numeric
    ["confidence"] above the acceptance threshold. *)
Definition resolved_entity (response : Dict PyVal) : option string :=
  match dict_get "entity" response, dict_get "confidence" response with
  | Some (PStr e), Some (PNum c) =>
      if negb (Qle_bool c acceptance_threshold) then Some e else None
  | _, _ => None
  end.

(** Modelled from the spec: [ContextManager.update_context], whose module
    [context_manager.py] is imported by [enhanced_chatbot.py] but is not in
    the sources. Spec 4.3: it "appends a ConversationTurn, and only when the
    response carries a resolved entity/intent with confidence above the
    acceptance threshold overwrites current_entity/current_intent and adds
    to referenced_entities"; unsuccessful resolutions do not overwrite
    [current_entity]. [referenced_entities] is a set. *)
Definition update_context (ctx : SessionContext) (query : string)
    (response : Dict PyVal) (entities : list string) (intent : string) : SessionContext :=
  let hist := history ctx ++ [mkTurn query entities intent response] in
  match resolved_entity response with
  | Some e =>
      mkContext hist (Some e) (Some intent)
        (if existsb (String.eqb e) (referenced_entities ctx)
         then referenced_entities ctx else referenced_entities ctx ++ [e])
  | None => mkContext hist (current_entity ctx) (current_intent ctx) (referenced_entities ctx)
  end.

(** Modelled from the spec: the keyed store of session contexts, with
    [get(session_id)] giving the empty context for an absent id. *)
Definition Store : Type := Dict SessionContext.

Definition get_context (store : Store) (session_id : string) : SessionContext :=
  match dict_get session_id store with Some c => c | None => empty_context end.

(** The analysis of [NLUModule.analyze_query] on its success path: the
    fields the engine reads. *)
Record Analysis : Type := mkAnalysis {
  processed_query : string;
  a_entities : list string;
  a_intent : string;
  is_followup : bool
}.

(** The update step of [EnhancedChatbot.process_query] (lines 66-73):
    [self.context_manager.update_context(session_id=session_id, query=query,
    response=response, entities=analysis.get('entities', []),
    intent=analysis.get('intent'))], once per processed query. *)
Definition process_update (store : Store) (session_id query : string)
    (analysis : Analysis) (response : Dict PyVal) : Store :=
  dict_set session_id
    (update_context (get_context store session_id) query response
       (a_entities analysis) (a_intent analysis))
    store.

End Session.

(* ------------------------------------------------------------------ *)
(** ** Resolution engine ([enhanced_chatbot.py]) *)

Module Engine.
Import Session.

(** [knowledge_base.json]: categories mapping entity names to attribute
    objects. *)
Definition KB : Type := Dict (Dict (Dict PyVal)).

(** [d.get(k)] and [d.get(k, default)]. *)
Definition get_or (d : Dict PyVal) (k : string) (default : PyVal) : PyVal :=
  match dict_get k d with Some v => v | None => default end.

Definition as_number (v : PyVal) : option Q :=
  match v with
  | PNum q => Some q
  | PBool b => Some (if b then 1 else 0)
  | _ => None
  end.

(** Python's binary [+]. *)
Definition py_add (a b : PyVal) : Exc PyVal :=
  match a, b with
  | PList x, PList y => ret (PList (x ++ y))
  | PStr x, PStr y => ret (PStr (x ++ y))
  | _, _ =>
      match as_number a, as_number b with
      | Some x, Some y => ret (PNum (x + y))
      | _, _ => raise (TypeError "unsupported operand type(s) for +")
      end
  end.

Definition is_dict (v : PyVal) : bool := match v with PDict _ => true | _ => false end.

(** [for category, items in self.knowledge_base.items(): if entity in items]:
    the first category holding [entity], with the entity's data. *)
Fixpoint kb_find (kb : KB) (entity : string) : option (string * Dict PyVal) :=
  match kb with
  | [] => None
  | (category, items) :: rest =>
      match dict_get entity items with
      | Some data => Some (category, data)
      | None => kb_find rest entity
      end
  end.

(** [EnhancedChatbot._get_entity_info] (lines 137-181). *)
Definition get_entity_info (kb : KB) (entity intent : string) : Exc (Dict PyVal) :=
  match kb_find kb entity with
  | None => ret [("confidence", PNum 0)]
  | Some (category, entity_data) =>
      let response := [("type", PStr intent); ("entity", PStr entity); ("confidence", PNum 1)] in
      if String.eqb intent "location" then
        ret (dict_update response
               [("address", get_or entity_data "address" PNone);
                ("location", get_or entity_data "location" PNone);
                ("map_link", get_or entity_data "map_link" PNone)])
      else if String.eqb intent "description" then
        ret (dict_update response
               [("description", get_or entity_data "description" PNone);
                ("type_info", get_or entity_data "type" PNone);
                ("category", PStr category)])
      else if String.eqb intent "facilities" then
        facilities <- py_add (get_or entity_data "facilities" (PList []))
                             (get_or entity_data "amenities" (PList [])) ;;
        ret (dict_update response
               [("facilities", facilities);
                ("description", get_or entity_data "description" PNone)])
      else if String.eqb intent "contact" then
        ret (dict_update response
               [("contact", get_or entity_data "contact" PNone);
                ("additional_info", get_or entity_data "description" PNone)])
      else
        ret (dict_update response
               (filter (fun kv => negb (existsb (String.eqb (fst kv)) ["id"; "type"])
                                  && negb (is_dict (snd kv))) entity_data))
  end.

(** [response.get('confidence', 0) > 0.6]; comparing a non-number with a
    float raises [TypeError]. *)
Definition confident (response : Dict PyVal) : Exc bool :=
  match dict_get "confidence" response with
  | None => ret false
  | Some v =>
      match as_number v with
      | Some c => ret (NLU.Qltb acceptance_threshold c)
      | None => raise (TypeError "'>' not supported")
      end
  end.

(** The loop of lines 117-121: the first entity, in extraction order, whose
    response is confident. *)
Fixpoint first_confident (kb : KB) (entities : list string) (intent : string)
  : Exc (option (Dict PyVal)) :=
  match entities with
  | [] => ret None
  | entity :: rest =>
      response <- get_entity_info kb entity intent ;;
      ok <- confident response ;;
      if ok then ret (Some response) else first_confident kb rest intent
  end.

(** [', '.join(v)]: the items of an iterable of strings. *)
Definition join_items (v : PyVal) : Exc (list string) :=
  match v with
  | PList vs =>
      match NLU.omap_all (fun x => match x with PStr s => Some s | _ => None end) vs with
      | Some ss => ret ss
      | None => raise (TypeError "sequence item: expected str instance")
      end
  | PStr s => ret (map (fun c => String c EmptyString) (list_ascii_of_string s))
  | PDict kvs => ret (map fst kvs)
  | _ => raise (TypeError "can only join an iterable")
  end.

(** [s.split(':', 1)] *)
Fixpoint split_colon (s : string) : string * option string :=
  match s with
  | EmptyString => (EmptyString, None)
  | String c s' =>
      if Ascii.eqb c ":"%char then (EmptyString, Some s')
      else let (a, b) := split_colon s' in (String c a, b)
  end.

Fixpoint lstrip (s : string) : string :=
  match s with
  | String c s' => if NLU.is_space c then lstrip s' else s
  | EmptyString => EmptyString
  end.

(** [s.strip()] *)
Definition strip (s : string) : string :=
  string_of_list_ascii (rev (list_ascii_of_string
    (lstrip (string_of_list_ascii (rev (list_ascii_of_string (lstrip s))))))).

(** [EnhancedChatbot._format_candidate_response] (lines 208-230). *)
Definition format_candidate_response (candidate : string) (confidence : Q) : Dict PyVal :=
  let (before, after) := split_colon candidate in
  let entity := strip before in
  let info := match after with Some a => strip a | None => EmptyString end in
  let response_type :=
    if str_in "located at" candidate then "location"
    else if str_in "facilities" candidate then "facilities"
    else if str_in "Contact" candidate then "contact"
    else "description" in
  [("type", PStr response_type); ("entity", PStr entity);
   ("description", PStr info); ("confidence", PNum confidence)].

(** Python's stable [list.sort(key=lambda x: x[1], reverse=True)]: an
    element goes after every element with a score at least its own. *)
Fixpoint insert_desc (x : string * Q) (l : list (string * Q)) : list (string * Q) :=
  match l with
  | [] => [x]
  | y :: l' => if NLU.Qltb (snd y) (snd x) then x :: l else y :: insert_desc x l'
  end.

Definition sort_desc (l : list (string * Q)) : list (string * Q) :=
  fold_left (fun acc x => insert_desc x acc) l [].

Definition generic_suggestions : list string :=
  ["Tell me about the Kattankulathur Campus";
   "What facilities are available in Tech Park?";
   "How can I contact the admissions office?";
   "What are the hostel facilities?";
   "Where is the Central Library?"].

Definition similarity_floor : Q := 1 # 2.

Section WithProviders.
Local Open Scope string_scope.

(** [repr()] of non-string values (see [py_str]). *)
Variable py_repr : PyVal -> string.

(** [NLUModule.get_semantic_similarity]: the cosine similarity of two
    texts' embeddings, [0.0] when the provider faults. *)
Variable semantic_similarity : string -> string -> Q.

(** The embedding similarity and numpy argsort used by
    [NLUModule.find_best_matches]. *)
Variable cos_sim : string -> string -> option Q.
Variable argsort : list Q -> list nat.

(** The candidates generated for one knowledge-base entity (lines 190-204). *)
Definition entity_candidates (entity : string) (data : Dict PyVal) : Exc (list string) :=
  let c_desc := entity ++ ": " ++ py_str py_repr (get_or data "description" (PStr "")) in
  c_fac <- (match dict_get "facilities" data with
            | Some f => parts <- join_items f ;;
                        ret [entity ++ " facilities: " ++ String.concat ", " parts]
            | None => ret []
            end) ;;
  let c_addr := match dict_get "address" data with
                | Some a => [entity ++ " is located at " ++ py_str py_repr a]
                | None => []
                end in
  let c_contact := match dict_get "contact" data with
                   | Some (PDict kvs) =>
                       ["Contact " ++ entity ++ ": " ++
                        String.concat ", " (map (fun kv => fst kv ++ ": " ++ py_str py_repr (snd kv)) kvs)]
                   | Some c => ["Contact " ++ entity ++ ": " ++ py_str py_repr c]
                   | None => []
                   end in
  ret (c_desc :: c_fac ++ c_addr ++ c_contact)%list.

Fixpoint items_candidates (items : Dict (Dict PyVal)) : Exc (list string) :=
  match items with
  | [] => ret []
  | (entity, data) :: rest =>
      cs <- entity_candidates entity data ;;
      rs <- items_candidates rest ;;
      ret (cs ++ rs)%list
  end.

(** [EnhancedChatbot._get_candidate_responses] (lines 183-206). *)
Fixpoint get_candidate_responses (kb : KB) : Exc (list string) :=
  match kb with
  | [] => ret []
  | (_, items) :: rest =>
      cs <- items_candidates items ;;
      rs <- get_candidate_responses rest ;;
      ret (cs ++ rs)%list
  end.

(** The pairs [(kb_entity, similarity)] above the similarity floor
    collected by lines 239-249, in loop order. *)
Definition similar_entities (kb : KB) (entities : list string) : list (string * Q) :=
  flat_map (fun entity =>
    flat_map (fun cat_items =>
      flat_map (fun kb_entry =>
        let similarity := semantic_similarity entity (fst kb_entry) in
        if NLU.Qltb similarity_floor similarity then [(fst kb_entry, similarity)] else [])
        (snd cat_items)) kb) entities.

(** [EnhancedChatbot._generate_fallback_response] (lines 232-278); the
    context it reads from the session store is not used. *)
Definition generate_fallback_response (kb : KB) (analysis : Analysis) : Dict PyVal :=
  let similar := sort_desc (similar_entities kb (a_entities analysis)) in
  let suggestions :=
    match similar with
    | [] => generic_suggestions
    | _ => flat_map (fun ent => ["What is " ++ fst ent ++ "?";
                                 "Tell me about " ++ fst ent;
                                 "Where is " ++ fst ent ++ " located?"]) (firstn 3 similar)
    end in
  [("type", PStr "fallback");
   ("message", PStr "I'm not quite sure about that. Here are some related questions you might be interested in:");
   ("suggestions", PList (map PStr (firstn 5 suggestions)));
   ("confidence", PNum 0)].

(** [EnhancedChatbot._find_best_match] (lines 111-135). *)
Definition find_best_match (kb : KB) (analysis : Analysis) : Exc (Dict PyVal) :=
  found <- first_confident kb (a_entities analysis) (a_intent analysis) ;;
  match found with
  | Some response => ret response
  | None =>
      let query := processed_query analysis in
      candidates <- get_candidate_responses kb ;;
      match candidates with
      | [] => ret (generate_fallback_response kb analysis)
      | _ =>
          match NLU.find_best_matches cos_sim argsort query candidates 3 with
          | (best_match, confidence) :: _ =>
              if NLU.Qltb acceptance_threshold confidence
              then ret (format_candidate_response best_match confidence)
              else ret (generate_fallback_response kb analysis)
          | [] => ret (generate_fallback_response kb analysis)
          end
      end
  end.

End WithProviders.

(** An attribute that [entity_data.get(k, [])] reads as a list. *)
Definition list_or_absent (data : Dict PyVal) (k : string) : bool :=
  match dict_get k data with
  | None => true
  | Some (PList _) => true
  | Some _ => false
  end.

End Engine.

(* ------------------------------------------------------------------ *)
(** ** Admission handler ([admission_handler.py]) *)

Module Admission.

Inductive AdmissionType : Type := DOMESTIC | INTERNATIONAL | NRI | TRANSFER.

Record AdmissionRequirements : Type := mkRequirements {
  documents : list string;
  eligibility : string;
  contact_email : string;
  procedure : string;
  deadlines : Dict string
}.

(** [self.admission_requirements] (lines 21-84). *)
Definition admission_requirements (t : AdmissionType) : AdmissionRequirements :=
  match t with
  | DOMESTIC =>
      mkRequirements
        ["10th Mark Sheet"; "12th Mark Sheet"; "SRMJEEE Score Card"; "Aadhar Card";
         "Passport size photographs"]
        "Minimum 60% in PCM for Engineering"
        "admissions@srmist.edu.in"
        "Apply through SRMJEEE and counselling"
        [("SRMJEEE Registration", "April 30"); ("Counselling", "June-July")]
  | INTERNATIONAL =>
      mkRequirements
        ["High School Transcripts"; "Standardized Test Scores (SAT/ACT)";
         "English Proficiency (IELTS/TOEFL)"; "Passport"; "Statement of Purpose"]
        "Completed 12 years of education with good academic record"
        "admissions.ir@srmist.edu.in"
        "Apply through International Admissions Portal"
        [("Fall Semester", "June 30"); ("Spring Semester", "December 15")]
  | NRI =>
      mkRequirements
        ["NRI Status Proof"; "Passport copies"; "Academic transcripts"; "Bank statements"]
        "NRI/NRI Sponsored candidates"
        "nri.admissions@srmist.edu.in"
        "Direct admission through NRI quota"
        [("Application", "May 31"); ("Admission", "June 30")]
  | TRANSFER =>
      mkRequirements
        ["Current University Transcripts"; "No Objection Certificate";
         "Migration Certificate"; "Syllabus of completed courses"]
        "Completed at least one year at recognized university"
        "transfer.admissions@srmist.edu.in"
        "Apply with complete transcripts for credit transfer"
        [("Fall Transfer", "July 15"); ("Spring Transfer", "December 31")]
  end.

(** [AdmissionHandler._determine_admission_type] (lines 129-141), typed
    [Optional[AdmissionType]] as in the source. *)
Definition determine_admission_type (query : string) : option AdmissionType :=
  if any_in ["international"; "foreign"; "abroad"; "overseas"] query then Some INTERNATIONAL
  else if any_in ["nri"; "non resident"; "non-resident"] query then Some NRI
  else if any_in ["transfer"; "change university"; "credit transfer"] query then Some TRANSFER
  else if any_in ["domestic"; "indian"; "local"; "srmjeee"] query then Some DOMESTIC
  else Some DOMESTIC.

Definition documents_val (r : AdmissionRequirements) : PyVal := PList (map PStr (documents r)).
Definition deadlines_val (r : AdmissionRequirements) : PyVal :=
  PDict (map (fun kv => (fst kv, PStr (snd kv))) (deadlines r)).

Definition unknown_type_error : Dict PyVal :=
  [("error", PStr "Unable to determine admission type. Please specify if you're asking about domestic, international, NRI, or transfer admissions.")].

(** [AdmissionHandler.handle_admission_query] (lines 86-127). An [Enum]
    member is truthy, so [not admission_type] holds only for [None]. *)
Definition handle_admission_query (query : string) : Dict PyVal :=
  let query := str_lower query in
  match determine_admission_type query with
  | None => unknown_type_error
  | Some t =>
      let r := admission_requirements t in
      let response :=
        (if any_in ["document"; "require"; "submit"] query
         then [("documents", documents_val r)] else []) ++
        (if any_in ["eligible"; "eligibility"; "qualify"] query
         then [("eligibility", PStr (eligibility r))] else []) ++
        (if any_in ["procedure"; "process"; "how to"; "steps"] query
         then [("procedure", PStr (procedure r))] else []) ++
        (if any_in ["deadline"; "date"; "when"] query
         then [("deadlines", deadlines_val r)] else []) ++
        (if any_in ["contact"; "email"; "reach"] query
         then [("contact", PStr (contact_email r))] else []) in
      match response with
      | [] => [("documents", documents_val r); ("eligibility", PStr (eligibility r));
               ("procedure", PStr (procedure r)); ("deadlines", deadlines_val r);
               ("contact", PStr (contact_email r))]
      | _ => response
      end
  end.

End Admission.

(* ------------------------------------------------------------------ *)
(** ** Relationships of the knowledge graph ([knowledge_graph.py]) *)

Module KGRel.
Import KG.

Definition has_node (g : Graph) (n : string) : bool := dict_mem n (g_nodes g).

(** The one-character strings of a string: iterating a Python [str]. *)
Definition chars (s : string) : list string :=
  map (fun c => String c EmptyString) (list_ascii_of_string s).

(** [list(dict.fromkeys(l))]: the first occurrences, in order. *)
Fixpoint dedup_acc (seen : list string) (l : list string) : list string :=
  match l with
  | [] => []
  | x :: l' =>
      if existsb (String.eqb x) seen then dedup_acc seen l'
      else x :: dedup_acc (x :: seen) l'
  end.

Definition dict_fromkeys (l : list string) : list string := dedup_acc [] l.

(** [MultiDiGraph.add_edge(u, v, **attr)]: a missing endpoint is added with
    an empty attribute dict ([u] first, then [v]); every call adds a new
    parallel edge (a fresh key) whose data dict is [attr]. The edge list
    keeps the edges in the order they were added. *)
Definition add_edge (g : Graph) (u v : string) (attr : Dict PyVal) : Graph :=
  let nodes1 := if dict_mem u (g_nodes g) then g_nodes g else g_nodes g ++ [(u, [])] in
  let nodes2 := if dict_mem v nodes1 then nodes1 else nodes1 ++ [(v, [])] in
  mkGraph nodes2 (g_edges g ++ [(u, v, dict_update [] attr)]).

(** [SRMKnowledgeGraph.add_relationship] (lines 186-188). *)
Definition add_relationship (g : Graph) (from_entity to_entity relationship_type : string)
  : Graph :=
  add_edge g from_entity to_entity [("relationship", PStr relationship_type)].

(** The keys of [self._succ[u]]: the successors of [u], in the order of
    their first edge from [u]. *)
Definition succ_order (g : Graph) (u : string) : list string :=
  dict_fromkeys (map (fun e => snd (fst e))
                     (filter (fun e => String.eqb (fst (fst e)) u) (g_edges g))).

(** The data dicts of [self._succ[u][v]], in key order. *)
Definition edge_datas (g : Graph) (u v : string) : list (Dict PyVal) :=
  map snd (filter (fun e => String.eqb (fst (fst e)) u && String.eqb (snd (fst e)) v)
                  (g_edges g)).

(** [dict.fromkeys(G.nbunch_iter(n))] for a string [n]: [[n]] when [n] is a
    node; otherwise [n] is iterated as a container, which gives those of its
    characters that are nodes. *)
Definition nbunch (g : Graph) (n : string) : list string :=
  if has_node g n then [n] else dict_fromkeys (filter (has_node g) (chars n)).

(** [self.graph.edges(n, data=True)] on a [MultiDiGraph]: for each node of
    the bunch, for each successor, each parallel edge. *)
Definition out_edges (g : Graph) (n : string) : list (string * string * Dict PyVal) :=
  flat_map (fun u => flat_map (fun v => map (fun d => (u, v, d)) (edge_datas g u v))
                              (succ_order g u))
           (nbunch g n).

Definition node_attrs (g : Graph) (n : string) : Dict PyVal :=
  match dict_get n (g_nodes g) with Some a => a | None => [] end.

(** [{'id': neighbor, 'relationship': edge_data.get('relationship'),
    **neighbor_data}] *)
Definition related_record (g : Graph) (e : string * string * Dict PyVal) : Dict PyVal :=
  let neighbor := snd (fst e) in
  dict_update [("id", PStr neighbor);
               ("relationship", match dict_get "relationship" (snd e) with
                                | Some r => r | None => PNone end)]
              (node_attrs g neighbor).

(** [if relationship_type and edge_data.get('relationship') != relationship_type:
    continue]; [None] and [''] are falsy. *)
Definition keep_edge (relationship_type : option string) (edge_data : Dict PyVal) : bool :=
  match relationship_type with
  | Some r =>
      if String.eqb r "" then true
      else py_eqb (match dict_get "relationship" edge_data with
                   | Some v => v | None => PNone end) (PStr r)
  | None => true
  end.

(** [SRMKnowledgeGraph.get_related_entities] (lines 168-180). *)
Definition get_related_entities (g : Graph) (entity_id : string)
    (relationship_type : option string) : list (Dict PyVal) :=
  map (related_record g)
      (filter (fun e => keep_edge relationship_type (snd e)) (out_edges g entity_id)).

End KGRel.

(* ------------------------------------------------------------------ *)
(** ** The graph built by [SRMKnowledgeGraph.__init__] *)

Module Build.
Import KG KGRel.

(** [self.entities] (lines 8-103). *)
Definition entities : Dict (Dict (Dict PyVal)) :=
  [("campuses",
    [("Kattankulathur",
      [("location", PStr "Chennai"); ("established", PStr "1985");
       ("address", PStr "SRM Nagar, Kattankulathur, Chengalpattu District, Tamil Nadu - 603203");
       ("landmarks", PList [PStr "Tech Park"; PStr "University Building"; PStr "Central Library"])]);
     ("Delhi-NCR",
      [("location", PStr "Sonepat"); ("established", PStr "2013");
       ("address", PStr "Delhi-NCR Campus Plot No. 39, Rajiv Gandhi Education City, PS Rai, Sonepat, Haryana - 131029")]);
     ("Amaravati",
      [("location", PStr "Andhra Pradesh"); ("established", PStr "2017");
       ("address", PStr "Neerukonda, Mangalagiri Mandal, Guntur District, Andhra Pradesh - 522502")]);
     ("Sikkim",
      [("location", PStr "Gangtok"); ("established", PStr "2019");
       ("address", PStr "5th Mile, Tadong, Gangtok, East Sikkim - 737102")])]);
   ("locations",
    [("Tech Park",
      [("description", PStr "A state-of-the-art facility housing research labs and industry collaboration centers");
       ("location", PStr "Kattankulathur Campus");
       ("facilities", PList [PStr "Research Labs"; PStr "Innovation Center"; PStr "Industry Collaboration Space"]);
       ("map_link", PStr "https://maps.app.goo.gl/HvLKqGK8TFE5QWLP6")]);
     ("Central Library",
      [("description", PStr "Multi-story library with vast collection of books, journals, and digital resources");
       ("location", PStr "Kattankulathur Campus");
       ("facilities", PList [PStr "Reading Halls"; PStr "Digital Library"; PStr "Conference Rooms"]);
       ("map_link", PStr "https://maps.app.goo.gl/HvLKqGK8TFE5QWLP6")]);
     ("University Building",
      [("description", PStr "Main administrative building housing key offices and departments");
       ("location", PStr "Kattankulathur Campus");
       ("facilities", PList [PStr "Administrative Offices"; PStr "Admission Office"; PStr "Exam Cell"])])]);
   ("programs",
    [("Engineering",
      [("degrees", PList [PStr "B.Tech"; PStr "M.Tech"; PStr "Ph.D"]);
       ("departments", PList [PStr "Computer Science"; PStr "Mechanical"; PStr "Civil";
                              PStr "Electronics and Communication"; PStr "Electrical and Electronics"])]);
     ("Medicine",
      [("degrees", PList [PStr "MBBS"; PStr "MD"; PStr "MS"]);
       ("departments", PList [PStr "General Medicine"; PStr "Surgery"; PStr "Pediatrics";
                              PStr "Orthopedics"])]);
     ("Management",
      [("degrees", PList [PStr "BBA"; PStr "MBA"; PStr "Ph.D"]);
       ("departments", PList [PStr "Finance"; PStr "Marketing"; PStr "Human Resources";
                              PStr "Operations"])]);
     ("Law",
      [("degrees", PList [PStr "BBA LLB"; PStr "LLM"]);
       ("departments", PList [PStr "Corporate Law"; PStr "Criminal Law"; PStr "Civil Law"])])]);
   ("facilities",
    [("hostels",
      [("types", PList [PStr "Men's Hostel"; PStr "Women's Hostel"]);
       ("amenities", PList [PStr "Wi-Fi"; PStr "Gym"; PStr "Reading Room"; PStr "Cafeteria"])]);
     ("sports",
      [("indoor", PList [PStr "Badminton"; PStr "Table Tennis"; PStr "Chess"]);
       ("outdoor", PList [PStr "Cricket"; PStr "Football"; PStr "Basketball"])]);
     ("transportation",
      [("services", PList [PStr "College Bus"; PStr "Shuttle Service"]);
       ("routes", PList [PStr "Chennai City"; PStr "Local Areas"])])])].

Definition category (name : string) : Dict (Dict PyVal) :=
  match dict_get name entities with Some c => c | None => [] end.

(** The strings of a list attribute such as [details['degrees']]. *)
Definition str_items (v : option PyVal) : list string :=
  match v with
  | Some (PList vs) => flat_map (fun x => match x with PStr s => [s] | _ => [] end) vs
  | _ => []
  end.

(** Lines 109-110: the campus nodes. *)
Definition add_campuses (g : Graph) : Graph :=
  fold_left (fun g cd => add_node g (fst cd) (("type", PStr "campus") :: snd cd))
            (category "campuses") g.

(** Lines 113-116: each location node, then an edge from
    [details['location']] (a string) to it. *)
Definition add_locations (g : Graph) : Graph :=
  fold_left (fun g ld =>
               let g := add_node g (fst ld) (("type", PStr "location") :: snd ld) in
               match dict_get "location" (snd ld) with
               | Some (PStr campus) => add_edge g campus (fst ld) [("relationship", PStr "has_location")]
               | _ => g
               end)
            (category "locations") g.

(** Lines 119-127: each program node; then, for every campus, an [offers]
    edge and, for every degree, the degree node and a [has_degree] edge. *)
Definition add_programs (g : Graph) : Graph :=
  fold_left (fun g pd =>
               let program := fst pd in
               let g := add_node g program (("type", PStr "program") :: snd pd) in
               fold_left (fun g campus =>
                            let g := add_edge g campus program [("relationship", PStr "offers")] in
                            fold_left (fun g degree =>
                                         let g := add_node g (program ++ "_" ++ degree)
                                                    [("type", PStr "degree"); ("program", PStr program);
                                                     ("degree", PStr degree)] in
                                         add_edge g program (program ++ "_" ++ degree)
                                                  [("relationship", PStr "has_degree")])
                                      (str_items (dict_get "degrees" (snd pd))) g)
                         (map fst (category "campuses")) g)
            (category "programs") g.

(** Lines 130-133: each facility node and a [has_facility] edge from every
    campus. *)
Definition add_facilities (g : Graph) : Graph :=
  fold_left (fun g fd =>
               let g := add_node g (fst fd) (("type", PStr "facility") :: snd fd) in
               fold_left (fun g campus => add_edge g campus (fst fd) [("relationship", PStr "has_facility")])
                         (map fst (category "campuses")) g)
            (category "facilities") g.

(** [SRMKnowledgeGraph._build_graph] (lines 106-133) on an empty
    [MultiDiGraph]. *)
Definition build_graph : Graph :=
  add_facilities (add_programs (add_locations (add_campuses empty_graph))).

End Build.

(* ------------------------------------------------------------------ *)
(** ** Question type and intent detection ([nlu_module.py]) *)

Module NLUDetect.

(** [self.intent_patterns] (lines 63-100); the patterns are tested with
    [pattern in text], as substrings. *)
Definition intent_patterns : list (string * list string) :=
  [("location", ["where"; "location"; "address"; "directions"; "find"; "reach"]);
   ("timing", ["when"; "timing"; "schedule"; "hours"; "open"; "close"]);
   ("process", ["how to"; "process"; "steps"; "procedure"; "apply"]);
   ("contact", ["contact"; "email"; "phone"; "reach out"; "get in touch"]);
   ("description", ["what is"; "tell me about"; "describe"; "explain"])].

(** [NLUModule.detect_intent] (lines 144-152). *)
Definition detect_intent (text : string) : string :=
  let text := Engine.strip (str_lower text) in
  match find (fun ip => any_in (snd ip) text) intent_patterns with
  | Some (intent, _) => intent
  | None => "general"
  end.

(** A regex of [self.question_patterns] (lines 34-60): a search for one of
    the alternatives of a literal pattern, or a match of one at the start. *)
Inductive Pattern : Type :=
| Search : list string -> Pattern
| AtStart : list string -> Pattern.

Definition pattern_matches (text : string) (p : Pattern) : bool :=
  match p with
  | Search alts => any_in alts text
  | AtStart alts => existsb (startswith text) alts
  end.

Definition question_patterns : list (string * list Pattern) :=
  [("factual", [Search ["what is"; "what are"]; Search ["where is"; "where are"];
                Search ["when is"; "when are"]; Search ["who is"; "who are"]; Search ["which"]]);
   ("procedural", [Search ["how to"; "how do"; "how can"; "how should"];
                   Search ["what steps"; "what process"]; Search ["guide"]; Search ["explain"]]);
   ("comparative", [Search ["compare"]; Search ["difference between"]; Search ["vs"];
                    Search ["versus"]; Search ["better"]; Search ["advantages"]]);
   ("yes_no", [AtStart ["is"; "are"; "can"; "should"; "do"; "does"; "will"];
               AtStart ["has"; "have"; "had"]])].

(** [NLUModule.detect_question_type] (lines 134-142). *)
Definition detect_question_type (text : string) : string :=
  let text := Engine.strip (str_lower text) in
  match find (fun qp => existsb (pattern_matches text) (snd qp)) question_patterns with
  | Some (q_type, _) => q_type
  | None => "other"
  end.

End NLUDetect.

(* ------------------------------------------------------------------ *)
(** ** The ORB AI assistant ([orb_ai.py]) *)

Module Orb.
Import KG KGRel.
Local Open Scope string_scope.

Inductive QuestionType : Type :=
| GREETING | LOCATION | FACTUAL | PROCEDURAL | COMPARATIVE | UNKNOWN.

(** The values of the context dict built by [TextProcessor._extract_context]
    (lines 167-195): [None], a token text, or a list of token texts. *)
Inductive CtxVal : Type :=
| CNone : CtxVal
| CStr : string -> CtxVal
| CList : list string -> CtxVal.

Record ExtractedContext : Type := mkExtracted {
  time_reference : option string;
  location_reference : option string;
  comparison_aspects : list string;
  requirements : list string
}.

Definition opt_val (o : option string) : CtxVal :=
  match o with Some s => CStr s | None => CNone end.

(** The dict [_extract_context] returns, with its keys in order. *)
Definition context_dict (c : ExtractedContext) : Dict CtxVal :=
  [("time_reference", opt_val (time_reference c));
   ("location_reference", opt_val (location_reference c));
   ("comparison_aspects", CList (comparison_aspects c));
   ("requirements", CList (requirements c))].

(** The result of [TextProcessor.classify_question] (lines 69-106); a
    greeting comes with the empty context [{}] ([None] here). *)
Record Classification : Type := mkClassification {
  c_type : QuestionType;
  c_entities : list string;
  c_context : option ExtractedContext
}.

Definition ctx_dict (c : option ExtractedContext) : Dict CtxVal :=
  match c with Some e => context_dict e | None => [] end.

(** The exceptions the handlers below can raise. *)
Inductive OrbError : Type :=
| TypeErr : string -> OrbError
| KeyErr : string -> OrbError
| AttributeErr : string -> OrbError.

Definition OExc (A : Type) : Type := (OrbError + A)%type.

(** [self.context] of [ORBAI] (lines 27-35): the fields the methods read
    or write. Every value [follow_up_context] receives is an entity
    string. *)
Record OrbState : Type := mkOrbState {
  last_question_type : option QuestionType;
  last_entities : option (list string);
  conversation_history : list (Dict PyVal);
  follow_up_context : Dict string
}.

Definition last_list (st : OrbState) : list string :=
  match last_entities st with Some l => l | None => [] end.

Definition with_follow_up (st : OrbState) (f : Dict string) : OrbState :=
  mkOrbState (last_question_type st) (last_entities st) (conversation_history st) f.

Definition nl : string := String (ascii_of_nat 10) EmptyString.

(** Python truthiness of [d.get(k)]. *)
Definition py_truthy (v : option PyVal) : bool :=
  match v with
  | None | Some PNone => false
  | Some (PBool b) => b
  | Some (PNum q) => negb (Qeq_bool q 0)
  | Some (PStr s) => negb (String.eqb s "")
  | Some (PList l) => match l with [] => false | _ => true end
  | Some (PDict d) => match d with [] => false | _ => true end
  end.

(** [ORBAI.find_similar_questions] (lines 612-663). *)
Definition find_similar_questions (query : string) : list string :=
  let query := str_lower query in
  let suggestions :=
    if str_in "where" query then
      ((if str_in "srm" query then
         ["What are the different SRM campuses?";
          "Where is SRM Kattankulathur campus located?";
          "How to reach SRM main campus?"] else []) ++
      (if any_in ["tech park"; "library"; "hostel"] query then
         ["What facilities are available in Tech Park?";
          "Where is the Central Library located?";
          "What are the hostel facilities?"] else []))%list
    else if str_in "how" query then
      ((if any_in ["admission"; "apply"; "join"] query then
         ["How to apply for admission at SRM?";
          "What are the admission requirements?";
          "How to apply for international admission?"] else []) ++
      (if str_in "reach" query then
         ["How to reach SRM from Chennai airport?";
          "What transportation facilities are available?";
          "Is there a college bus service?"] else []))%list
    else if any_in ["program"; "course"; "degree"] query then
      ["What programs are offered at SRM?";
       "Which engineering branches are available?";
       "What are the postgraduate programs?"]
    else if any_in ["facility"; "amenity"; "infrastructure"] query then
      ["What facilities are available at SRM?";
       "What sports facilities are available?";
       "Tell me about the hostel facilities"]
    else [] in
  firstn 3 (dict_fromkeys suggestions).

(** [ORBAI._handle_fallback] (lines 303-343); [last_entities] is
    [self.context['last_entities']]. *)
Definition handle_fallback (query : string) (entities last_entities : list string) : Dict PyVal :=
  match find_similar_questions query with
  | (_ :: _) as similar_questions =>
      [("type", PStr "suggestion");
       ("formatted_answer",
        PStr ("I'm not sure about that, but you might be interested in:" ++ nl ++
              String.concat nl (map (fun q => "- " ++ q) similar_questions)))]
  | [] =>
      if NLU.orb_is_follow_up_question query entities last_entities &&
         match last_entities with [] => false | _ => true end
      then [("type", PStr "clarification");
            ("formatted_answer",
             PStr ("I'm not sure what you're asking about. Are you still asking about " ++
                   String.concat ", " last_entities ++ "?"))]
      else [("type", PStr "fallback");
            ("formatted_answer",
             PStr ("I apologize, but I couldn't find specific information about that. Could you please:" ++ nl ++
                   "1. Rephrase your question" ++ nl ++ "2. Be more specific" ++ nl ++
                   "3. Ask about a different topic like campus locations, programs, or facilities?"))]
  end.

(** [s.rstrip('s')] *)
Definition rstrip_s (s : string) : string :=
  let fix drop (l : list ascii) : list ascii :=
    match l with
    | c :: l' => if Ascii.eqb c "s"%char then drop l' else l
    | [] => []
    end in
  string_of_list_ascii (rev (drop (rev (list_ascii_of_string s)))).

(** [for entity in v] over a context value. *)
Definition iter_ctx (v : CtxVal) : OExc (list string) :=
  match v with
  | CNone => inl (TypeErr "'NoneType' object is not iterable")
  | CStr s => inr (chars s)
  | CList l => inr l
  end.

Definition ctx_truthy (v : CtxVal) : bool :=
  match v with
  | CNone => false
  | CStr s => negb (String.eqb s "")
  | CList l => match l with [] => false | _ => true end
  end.

Section Handlers.

Variable py_repr : PyVal -> string.

(** [TextProcessor.format_response] (text_processor.py, lines 197-288) and
    [ORBAI._format_response] (lines 568-610): the text of an answer. The
    properties below do not depend on it. *)
Variable tp_format_response : QuestionType -> PyVal -> OExc string.
Variable orb_format_response : Dict PyVal -> OExc string.

(** [list(set(l))]: the elements of [l] in the iteration order of a set. *)
Variable set_list : list string -> list string.

Variable g : Graph.

(** The loop of [ORBAI._handle_location_query] (lines 139-161), with
    [response_data] and [self.context['follow_up_context']]. *)
Fixpoint location_loop (entities : list string) (data : list (Dict PyVal))
    (fuc : Dict string) : list (Dict PyVal) * Dict string :=
  match entities with
  | [] => (data, fuc)
  | entity :: rest =>
      match query g "campus" [("id", PStr entity)] with
      | (_ :: _) as campus_info =>
          location_loop rest (data ++ campus_info)%list (dict_set "campus" entity fuc)
      | [] =>
          match query g "location" [("id", PStr entity)] with
          | (_ :: _) as location_info =>
              location_loop rest (data ++ location_info)%list (dict_set "location" entity fuc)
          | [] =>
              match search_by_text py_repr g entity with
              | (_ :: _) as search_results =>
                  location_loop rest (data ++ search_results)%list (dict_set "search_terms" entity fuc)
              | [] => location_loop rest data fuc
              end
          end
      end
  end.

(** [ORBAI._handle_location_query] (lines 131-170). *)
Definition handle_location_query (st : OrbState) (entities : list string)
  : OrbState * OExc (Dict PyVal) :=
  let (response_data, fuc) := location_loop entities [] (follow_up_context st) in
  let st' := with_follow_up st fuc in
  match tp_format_response LOCATION (PList (map PDict response_data)) with
  | inl e => (st', inl e)
  | inr fa => (st', inr [("type", PStr "location");
                         ("information", PList (map PDict response_data));
                         ("formatted_answer", PStr fa)])
  end.

(** The loops of the second [ORBAI._handle_factual_query(text, entities)]
    (lines 519-566, which replaces the one of lines 172-220 in the class):
    [entity_type.rstrip('s')] and an [id] filter for every entity of every
    value. *)
Fixpoint factual_entities (entity_type : string) (entity_list : list string)
    (information : Dict PyVal) : Dict PyVal :=
  match entity_list with
  | [] => information
  | entity :: rest =>
      match query g (rstrip_s entity_type) [("id", PStr entity)] with
      | info0 :: _ => factual_entities entity_type rest (dict_set entity (PDict info0) information)
      | [] => factual_entities entity_type rest information
      end
  end.

Fixpoint factual_types (entities : Dict CtxVal) (information : Dict PyVal) : OExc (Dict PyVal) :=
  match entities with
  | [] => inr information
  | (entity_type, v) :: rest =>
      match iter_ctx v with
      | inl e => inl e
      | inr entity_list => factual_types rest (factual_entities entity_type entity_list information)
      end
  end.

(** [ORBAI._handle_factual_query(text, entities)] (lines 519-566) as
    [_process_by_type] calls it: [text] is the entity list and [entities]
    the context dict. With no information, [search_by_text(text)] calls
    [.lower()] on a list. *)
Definition handle_factual_query (text : list string) (entities : Dict CtxVal)
  : OExc (Dict PyVal) :=
  match factual_types entities [] with
  | inl e => inl e
  | inr [] => inl (AttributeErr "'list' object has no attribute 'lower'")
  | inr information =>
      match orb_format_response information with
      | inl e => inl e
      | inr fa => inr [("type", PStr "factual"); ("information", PDict information);
                       ("formatted_answer", PStr fa)]
      end
  end.

(** The second [ORBAI._handle_procedural_query(text, entities)] (lines
    500-517) as [_process_by_type] calls it: [text] is the entity list, so
    [in] tests list membership. *)
Definition handle_procedural_query (text : list string) (entities : Dict CtxVal) : Dict PyVal :=
  if existsb (String.eqb "change campus") text || existsb (String.eqb "campus transfer") text
  then [("type", PStr "procedural");
        ("steps", PList [PStr "1. Submit application to current campus office";
                         PStr "2. Obtain No Objection Certificate (NOC)";
                         PStr "3. Apply to target campus";
                         PStr "4. Wait for approval from both campuses";
                         PStr "5. Complete transfer formalities"]);
        ("contact", PStr "transfer.office@srmist.edu.in")]
  else [("type", PStr "procedural"); ("steps", PList [])].

(** The loops of the second [ORBAI._handle_comparative_query]. *)
Fixpoint compare_items (kind relationship key : string) (items : list string)
  : list PyVal :=
  match items with
  | [] => []
  | item :: rest =>
      match query g kind [("id", PStr item)] with
      | info0 :: _ =>
          PDict [(kind, PStr item); ("details", PDict info0);
                 (key, PList (map PDict (get_related_entities g item (Some relationship))))]
          :: compare_items kind relationship key rest
      | [] => compare_items kind relationship key rest
      end
  end.

(** The second [ORBAI._handle_comparative_query(text, entities)] (lines
    458-498) as [_process_by_type] calls it: [entities] is the context
    dict, and [entities['campuses']] is a subscript. *)
Definition handle_comparative_query (text : list string) (entities : Dict CtxVal)
  : OExc (Dict PyVal) :=
  match dict_get "campuses" entities with
  | None => inl (KeyErr "campuses")
  | Some campuses =>
      if ctx_truthy campuses then
        match iter_ctx campuses with
        | inl e => inl e
        | inr cs => inr [("type", PStr "comparative");
                         ("comparisons", PList (compare_items "campus" "offers" "programs" cs))]
        end
      else
        match dict_get "programs" entities with
        | None => inl (KeyErr "programs")
        | Some programs =>
            if ctx_truthy programs then
              match iter_ctx programs with
              | inl e => inl e
              | inr ps => inr [("type", PStr "comparative");
                               ("comparisons", PList (compare_items "program" "includes" "courses" ps))]
              end
            else inr [("type", PStr "comparative"); ("comparisons", PList [])]
        end
  end.

(** [ORBAI._process_by_type] (lines 101-129). Python binds a method name to
    its last definition in the class body, so the factual, procedural and
    comparative handlers are those of lines 458-566. *)
Definition process_by_type (st : OrbState) (question_type : QuestionType)
    (entities : list string) (context : Dict CtxVal) : OrbState * OExc (Dict PyVal) :=
  match question_type with
  | GREETING =>
      (st, match tp_format_response GREETING (PDict []) with
           | inl e => inl e
           | inr fa => inr [("type", PStr "greeting"); ("formatted_answer", PStr fa)]
           end)
  | LOCATION => handle_location_query st entities
  | FACTUAL => (st, handle_factual_query entities context)
  | PROCEDURAL => (st, inr (handle_procedural_query entities context))
  | COMPARATIVE => (st, handle_comparative_query entities context)
  | UNKNOWN =>
      (st, inr [("type", PStr "unknown");
                ("formatted_answer", PStr "I'm sorry, I don't understand that type of question yet.")])
  end.

(** [ORBAI._resolve_references] (lines 83-99). *)
Definition resolve_references (st : OrbState) (current_entities : list string) (query : string)
  : list string :=
  let resolved :=
    match current_entities, last_list st with
    | [], _ :: _ =>
        if any_in ["same"; "this"; "that"; "it"] (str_lower query)
        then (current_entities ++ last_list st)%list else current_entities
    | _, _ => current_entities
    end in
  let resolved :=
    match dict_get "relevant_entities" (follow_up_context st) with
    | Some s => if String.eqb s "" then resolved else (resolved ++ chars s)%list
    | None => resolved
    end in
  set_list resolved.

(** [self.context['conversation_history'][-1]['response'] = response] *)
Definition set_last_response (h : list (Dict PyVal)) (response : Dict PyVal) : list (Dict PyVal) :=
  match rev h with
  | [] => h
  | last :: before => (rev before ++ [dict_set "response" (PDict response) last])%list
  end.

(** [ORBAI.process_query] (lines 37-69), given the classification of the
    query and the [datetime.now().isoformat()] stamp. The state is the one
    after the call, also when an exception escapes. *)
Definition process_query (st : OrbState) (query timestamp : string) (cls : Classification)
  : OrbState * OExc (Dict PyVal) :=
  let st := mkOrbState (last_question_type st) (last_entities st)
              (conversation_history st ++ [[("query", PStr query); ("timestamp", PStr timestamp)]])%list
              (follow_up_context st) in
  let st := mkOrbState (Some (c_type cls)) (Some (c_entities cls))
              (conversation_history st) (follow_up_context st) in
  let entities :=
    if NLU.orb_is_follow_up_question query (c_entities cls) (last_list st)
    then resolve_references st (c_entities cls) query
    else c_entities cls in
  let (st, result) := process_by_type st (c_type cls) entities (ctx_dict (c_context cls)) in
  match result with
  | inl e => (st, inl e)
  | inr response =>
      let response :=
        if match response with [] => true | _ => false end ||
           (negb (py_truthy (dict_get "information" response)) &&
            negb (py_truthy (dict_get "formatted_answer" response)))
        then handle_fallback query (c_entities cls) (last_list st)
        else response in
      (mkOrbState (last_question_type st) (last_entities st)
                  (set_last_response (conversation_history st) response)
                  (follow_up_context st), inr response)
  end.

End Handlers.

End Orb.

(* ------------------------------------------------------------------ *)
(** ** The fields of an admission answer ([admission_handler.py]) *)

Module AdmissionFields.
Import Admission.

(** The response keys of [handle_admission_query] (lines 102-115), each with
    the keywords that request it, in the order the code tests them. *)
Definition field_keywords : list (string * list string) :=
  [("documents", ["document"; "require"; "submit"]);
   ("eligibility", ["eligible"; "eligibility"; "qualify"]);
   ("procedure", ["procedure"; "process"; "how to"; "steps"]);
   ("deadlines", ["deadline"; "date"; "when"]);
   ("contact", ["contact"; "email"; "reach"])].

(** The five fields of a requirements record, as the response holds them. *)
Definition all_fields (r : AdmissionRequirements) : Dict PyVal :=
  [("documents", documents_val r); ("eligibility", PStr (eligibility r));
   ("procedure", PStr (procedure r)); ("deadlines", deadlines_val r);
   ("contact", PStr (contact_email r))].

End AdmissionFields.

(* ================================================================== *)
(** * Proofs *)

(** ** Dictionaries *)

Section DictLemmas.
Context {V : Type}.

Lemma dict_get_set_same (k : string) (v : V) (d : Dict V) :
  dict_get k (dict_set k v d) = Some v.
Proof.
  induction d as [|[k' v'] d IH]; simpl.
  - now rewrite String.eqb_refl.
  - destruct (String.eqb k k') eqn:E; simpl; rewrite ?E; auto.
Qed.

Lemma dict_get_set_other (k k' : string) (v : V) (d : Dict V) :
  k' <> k -> dict_get k' (dict_set k v d) = dict_get k' d.
Proof.
  intros Hne. induction d as [|[k0 v0] d IH]; simpl.
  - apply String.eqb_neq in Hne. now rewrite Hne.
  - destruct (String.eqb k k0) eqn:E; simpl.
    + apply String.eqb_eq in E; subst k0.
      apply String.eqb_neq in Hne. now rewrite Hne.
    + now rewrite IH.
Qed.

Lemma dict_set_existing (k : string) (v : V) (d : Dict V) :
  dict_get k d = Some v -> dict_set k v d = d.
Proof.
  induction d as [|[k' v'] d IH]; simpl; [discriminate|].
  destruct (String.eqb k k') eqn:E.
  - intros H; inversion H; subst. reflexivity.
  - intros H. now rewrite IH.
Qed.

Lemma dict_set_keys_existing (k : string) (v : V) (d : Dict V) :
  dict_get k d <> None -> map fst (dict_set k v d) = map fst d.
Proof.
  induction d as [|[k' v'] d IH]; simpl; [congruence|].
  destruct (String.eqb k k'); simpl; intros H; [reflexivity|].
  now rewrite IH.
Qed.

Lemma dict_get_app_none (k : string) (d e : Dict V) :
  dict_get k d = None -> dict_get k (d ++ e) = dict_get k e.
Proof.
  induction d as [|[k' v'] d IH]; simpl; auto.
  destruct (String.eqb k k'); [discriminate|auto].
Qed.

Lemma dict_get_none_not_in (k : string) (d : Dict V) :
  dict_get k d = None <-> ~ In k (map fst d).
Proof.
  induction d as [|[k' v'] d IH]; simpl; [tauto|].
  destruct (String.eqb k k') eqn:E.
  - apply String.eqb_eq in E. subst. split; [discriminate|tauto].
  - apply String.eqb_neq in E. rewrite IH. split; intros H; [|tauto].
    intros [H1|H1]; [congruence|tauto].
Qed.

Lemma dict_update_get_other (k : string) (d kvs : Dict V) :
  ~ In k (map fst kvs) -> dict_get k (dict_update d kvs) = dict_get k d.
Proof.
  revert d. induction kvs as [|[k' v'] kvs IH]; intros d Hk; simpl in *; auto.
  rewrite IH by tauto. apply dict_get_set_other. intros ->. tauto.
Qed.

Lemma dict_update_get_in (k : string) (v : V) (d kvs : Dict V) :
  NoDup (map fst kvs) -> In (k, v) kvs -> dict_get k (dict_update d kvs) = Some v.
Proof.
  revert d. induction kvs as [|[k' v'] kvs IH]; intros d Hnd Hin; simpl in *; [tauto|].
  inversion Hnd as [|? ? Hnot Hnd']; subst.
  destruct Hin as [Heq|Hin].
  - inversion Heq; subst. rewrite dict_update_get_other by assumption.
    apply dict_get_set_same.
  - now apply IH.
Qed.

Lemma dict_update_fixed (d kvs : Dict V) :
  (forall k v, In (k, v) kvs -> dict_get k d = Some v) -> dict_update d kvs = d.
Proof.
  revert d. induction kvs as [|[k v] kvs IH]; intros d H; simpl; auto.
  rewrite dict_set_existing by (apply H; now left).
  apply IH. intros; apply H; now right.
Qed.

Lemma dict_update_idem (d kvs : Dict V) :
  NoDup (map fst kvs) -> dict_update (dict_update d kvs) kvs = dict_update d kvs.
Proof.
  intros Hnd. apply dict_update_fixed. intros k v Hin.
  now apply dict_update_get_in.
Qed.

End DictLemmas.

Lemma str_in_empty (s : string) : str_in "" s = true.
Proof. destruct s; reflexivity. Qed.

(** ** The knowledge graph *)

Module KGFacts.
Import KG.

(** The node table of a graph is a dict: its ids are distinct. *)
Definition graph_wf (g : Graph) : Prop := NoDup (map fst (g_nodes g)).

Lemma empty_graph_wf : graph_wf empty_graph.
Proof. constructor. Qed.

Lemma add_node_wf (g : Graph) (n : string) (attr : Dict PyVal) :
  graph_wf g -> graph_wf (add_node g n attr).
Proof.
  unfold graph_wf, add_node. intros Hnd.
  destruct (dict_get n (g_nodes g)) eqn:E; simpl.
  - rewrite dict_set_keys_existing by congruence. exact Hnd.
  - rewrite map_app. simpl. apply NoDup_app; auto.
    + constructor; [simpl; tauto|constructor].
    + intros x Hx [Hy|[]]; subst. apply dict_get_none_not_in in E. tauto.
Qed.

Lemma add_entity_wf (g g' : Graph) (i t : string) (a : Dict PyVal) :
  graph_wf g -> add_entity g i t a = inr g' -> graph_wf g'.
Proof.
  unfold add_entity. intros Hwf.
  destruct (existsb _ _); intros H; inversion H; subst. now apply add_node_wf.
Qed.

(** The attributes stored for [n] after [add_node g n attr]. *)
Lemma add_node_get (g : Graph) (n : string) (attr : Dict PyVal) :
  dict_get n (g_nodes (add_node g n attr)) =
  Some (dict_update (match dict_get n (g_nodes g) with Some d => d | None => [] end) attr).
Proof.
  unfold add_node. destruct (dict_get n (g_nodes g)) eqn:E; simpl.
  - apply dict_get_set_same.
  - rewrite dict_get_app_none by assumption. simpl. now rewrite String.eqb_refl.
Qed.

Lemma add_node_existing_fixed (g : Graph) (n : string) (attr : Dict PyVal) :
  NoDup (map fst attr) -> add_node (add_node g n attr) n attr = add_node g n attr.
Proof.
  intros Hnd. remember (add_node g n attr) as g' eqn:Hg'.
  pose proof (add_node_get g n attr) as Hget. rewrite <- Hg' in Hget.
  unfold add_node at 1. rewrite Hget.
  rewrite dict_update_idem by assumption.
  rewrite dict_set_existing by assumption. now destruct g'.
Qed.

Lemma query_loop_filter (t : string) (f : Dict PyVal) (nodes : Dict (Dict PyVal)) :
  query_loop t f nodes = map entity_view (filter (query_selects t f) nodes).
Proof.
  induction nodes as [|n ns IH]; simpl; auto.
  destruct (query_selects t f n); simpl; now rewrite IH.
Qed.

Lemma matches_filters_spec (attrs f : Dict PyVal) :
  matches_filters attrs f = true <->
  (forall k v, In (k, v) f -> exists a, dict_get k attrs = Some a /\ py_eqb a v = true).
Proof.
  unfold matches_filters. rewrite forallb_forall. split.
  - intros H k v Hin. specialize (H (k, v) Hin). simpl in H.
    destruct (dict_get k attrs); [eauto|discriminate].
  - intros H [k v] Hin. simpl. destruct (H k v Hin) as (a & -> & Ha). exact Ha.
Qed.

Lemma query_selects_spec (t : string) (f : Dict PyVal) (n : string * Dict PyVal) :
  query_selects t f n = true <->
  (exists tv, dict_get "type" (snd n) = Some tv /\ py_eqb tv (PStr t) = true) /\
  (forall k v, In (k, v) f -> exists a, dict_get k (snd n) = Some a /\ py_eqb a v = true).
Proof.
  unfold query_selects. destruct (dict_get "type" (snd n)) as [tv|] eqn:E.
  - destruct (py_eqb tv (PStr t)) eqn:Et.
    + assert (Hf : (match f with [] => true | _ => matches_filters (snd n) f end)
                   = matches_filters (snd n) f) by (destruct f; reflexivity).
      rewrite Hf, matches_filters_spec. split; [intros H; split; eauto|tauto].
    + split; [discriminate|]. intros [(tv' & H1 & H2) _]. congruence.
  - split; [discriminate|]. intros [(tv' & H1 & _) _]. discriminate.
Qed.

Lemma query_add_fresh (g : Graph) (n : string) (attr : Dict PyVal) (t : string) (f : Dict PyVal) :
  dict_get n (g_nodes g) = None ->
  query (add_node g n attr) t f =
  query g t f ++ (if query_selects t f (n, dict_update [] attr)
                  then [entity_view (n, dict_update [] attr)] else []).
Proof.
  intros Hn. unfold query, add_node. rewrite Hn. simpl.
  rewrite !query_loop_filter, filter_app, map_app. simpl.
  destruct (query_selects t f _); reflexivity.
Qed.

Lemma search_loop_filter (py_repr : PyVal -> string) (q : string) (nodes : Dict (Dict PyVal)) :
  search_loop py_repr q nodes = map entity_view (filter (search_selects py_repr q) nodes).
Proof.
  induction nodes as [|[i attrs] ns IH]; simpl; auto.
  unfold search_selects at 1; simpl.
  destruct (str_in q (str_lower i)); simpl; [now rewrite IH|].
  destruct (attrs_match py_repr q attrs); simpl; now rewrite IH.
Qed.

Lemma NoDup_map_filter {A B} (h : A -> B) (p : A -> bool) (l : list A) :
  NoDup (map h l) -> NoDup (map h (filter p l)).
Proof.
  induction l as [|x l IH]; simpl; intros Hnd; [constructor|].
  inversion Hnd as [|? ? Hnot Hnd']; subst.
  destruct (p x); simpl; auto.
  constructor; auto. intros Hin. apply Hnot.
  apply in_map_iff in Hin as (y & Hy & Hiny). apply filter_In in Hiny as [Hiny _].
  rewrite <- Hy. now apply in_map.
Qed.

End KGFacts.

(* ================================================================== *)
(** * The claims *)

Import KG KGFacts.

(** ** [query] *)

(** X24. [query(type, filters)] returns, in node insertion order, the
    record [{'id': node_id, **attrs}] of exactly the nodes whose stored
    [type] equals [type] and whose stored attributes hold every filter key
    with an equal value. The node id is not a stored attribute, so a filter
    on ["id"] never selects a node without an explicit ["id"] attribute. A
    node added fresh by [add_entity] comes last. No match gives the empty
    list, never an error. *)
Theorem query_selects_by_stored_attributes (g : Graph) (t : string) (f : Dict PyVal) :
  query g t f = map entity_view (filter (query_selects t f) (g_nodes g)) /\
  (forall n, query_selects t f n = true <->
     (exists tv, dict_get "type" (snd n) = Some tv /\ py_eqb tv (PStr t) = true) /\
     (forall k v, In (k, v) f -> exists a, dict_get k (snd n) = Some a /\ py_eqb a v = true)) /\
  (forall n v, ~ In "id" (map fst (snd n)) -> query_selects t [("id", v)] n = false) /\
  (forall i t' a g', dict_get i (g_nodes g) = None -> add_entity g i t' a = inr g' ->
     let stored := dict_update [] (("type", PStr t') :: a) in
     query g' t f = query g t f ++
       (if query_selects t f (i, stored) then [entity_view (i, stored)] else [])).
Proof.
  split; [apply query_loop_filter|]. split; [apply query_selects_spec|]. split.
  - intros n v Hid. destruct (query_selects t [("id", v)] n) eqn:E; [|reflexivity].
    apply query_selects_spec in E as [_ Hf].
    destruct (Hf "id" v (or_introl eq_refl)) as (a & Ha & _).
    apply (proj2 (dict_get_none_not_in "id" (snd n))) in Hid. unfold Dict in *. congruence.
  - intros i t' a g' Hfresh Hadd. unfold add_entity in Hadd.
    destruct (existsb _ _); inversion Hadd; subst.
    now apply query_add_fresh.
Qed.

(** ** C2: [add_entity] *)

(** C2 (counterexample). Re-adding an existing id with a conflicting type
    does not fail: it succeeds and the node's [type] becomes the new one. *)
Lemma add_entity_conflict_counterexample :
  exists g1 g2,
    add_entity empty_graph "Tech Park" "location" [] = inr g1 /\
    add_entity g1 "Tech Park" "campus" [] = inr g2 /\
    g_nodes g2 = [("Tech Park", [("type", PStr "campus")])].
Proof. do 2 eexists; repeat split; reflexivity. Qed.

Lemma add_entity_no_reserved (g : Graph) (i t : string) (a : Dict PyVal) :
  (forall k, In k (map fst a) -> ~ In k reserved_kwargs) ->
  add_entity g i t a = inr (add_node g i (("type", PStr t) :: a)).
Proof.
  intros Hres. unfold add_entity.
  destruct (existsb _ _) eqn:E; [|reflexivity].
  apply existsb_exists in E as (k & Hk & E).
  apply existsb_exists in E as (r & Hr & E). apply String.eqb_eq in E. subst r.
  exfalso. exact (Hres k Hk Hr).
Qed.

(** C2 (amended). [add_entity(id, type, attributes)] never raises a
    duplicate error. For attributes without the reserved keyword names it
    succeeds: the node of [id] then has [type] as its type and every given
    attribute, and keeps its other attributes (an existing node is merged,
    even when its type differs; a new one starts empty); re-adding the same
    id, type and attributes leaves the graph unchanged. An attribute named
    ['type'], ['node_for_adding'] or ['self'] makes it raise [TypeError]. *)
Theorem add_entity_merges_and_is_idempotent (g : Graph) (i t : string) (a : Dict PyVal)
    (Hnd : NoDup (map fst a)) :
  ((forall k, In k (map fst a) -> ~ In k reserved_kwargs) ->
   exists g',
     add_entity g i t a = inr g' /\
     (exists attrs',
        dict_get i (g_nodes g') = Some attrs' /\
        dict_get "type" attrs' = Some (PStr t) /\
        (forall k v, In (k, v) a -> dict_get k attrs' = Some v) /\
        (forall k, k <> "type" -> ~ In k (map fst a) ->
           dict_get k attrs' =
           dict_get k (match dict_get i (g_nodes g) with Some d => d | None => [] end))) /\
     add_entity g' i t a = inr g') /\
  ((exists k, In k (map fst a) /\ In k reserved_kwargs) ->
   add_entity g i t a = inl (TypeError "add_node() got multiple values for a keyword argument")).
Proof.
  split.
  - intros Hres.
    assert (Hkw : NoDup (map fst (("type", PStr t) :: a))).
    { simpl. constructor; [|exact Hnd].
      intros Hin. apply (Hres "type" Hin). simpl; tauto. }
    exists (add_node g i (("type", PStr t) :: a)).
    split; [now apply add_entity_no_reserved|]. split.
    + eexists. split; [apply add_node_get|]. split; [|split].
      * apply dict_update_get_in; [exact Hkw|now left].
      * intros k v Hin. apply dict_update_get_in; [exact Hkw|now right].
      * intros k Hk Hna. apply dict_update_get_other. simpl. intros [H|H]; auto.
    + rewrite add_entity_no_reserved by exact Hres. f_equal.
      now apply add_node_existing_fixed.
  - intros (k & Hk & Hr). unfold add_entity.
    replace (existsb (fun k => existsb (String.eqb k) reserved_kwargs) (map fst a)) with true;
      [reflexivity|].
    symmetry. apply existsb_exists. exists k. split; [exact Hk|].
    apply existsb_exists. exists k. split; [exact Hr|apply String.eqb_refl].
Qed.

(** ** C10: [search_by_text] *)

(** C10. The empty query selects every node, in graph order; for any
    query, the result holds one record per selected node, whether its id or
    one or several of its attributes match, so no node is listed twice. *)
Theorem search_by_text_each_node_once (py_repr : PyVal -> string) (g : Graph) (q : string)
    (Hwf : graph_wf g) :
  search_by_text py_repr g "" = map entity_view (g_nodes g) /\
  search_by_text py_repr g q =
    map entity_view (filter (search_selects py_repr (str_lower q)) (g_nodes g)) /\
  NoDup (map fst (filter (search_selects py_repr (str_lower q)) (g_nodes g))).
Proof.
  split; [|split].
  - unfold search_by_text. rewrite search_loop_filter. simpl.
    f_equal. induction (g_nodes g) as [|n ns IH]; simpl; auto.
    unfold search_selects at 1. rewrite str_in_empty. simpl. now rewrite IH.
  - unfold search_by_text. apply search_loop_filter.
  - now apply NoDup_map_filter.
Qed.

(** ** Lists: sortedness and partial maps *)

Section ListLemmas.

Lemma StronglySorted_app_inv {A} (R : A -> A -> Prop) (a b : list A) :
  StronglySorted R (a ++ b) -> forall x y, In x a -> In y b -> R x y.
Proof.
  induction a as [|z a IH]; simpl; intros Hs x y Hx Hy; [tauto|].
  inversion Hs as [|? ? Hs' Hf]; subst.
  destruct Hx as [<-|Hx].
  - rewrite Forall_forall in Hf. apply Hf, in_or_app. now right.
  - now apply IH.
Qed.

Lemma StronglySorted_skipn {A} (R : A -> A -> Prop) (n : nat) (l : list A) :
  StronglySorted R l -> StronglySorted R (skipn n l).
Proof.
  revert l. induction n as [|n IH]; intros l Hs; simpl; auto.
  destruct l; auto. inversion Hs; subst. now apply IH.
Qed.

Lemma StronglySorted_snoc {A} (R : A -> A -> Prop) (l : list A) (a : A) :
  StronglySorted R l -> Forall (fun x => R x a) l -> StronglySorted R (l ++ [a]).
Proof.
  induction l as [|x l IH]; simpl; intros Hs Hf.
  - repeat constructor.
  - inversion Hs as [|? ? Hs' Hx]; subst. inversion Hf; subst.
    constructor; [now apply IH|]. apply Forall_app. split; auto.
Qed.

Lemma StronglySorted_rev {A} (R : A -> A -> Prop) (l : list A) :
  StronglySorted R l -> StronglySorted (fun x y => R y x) (rev l).
Proof.
  induction l as [|x l IH]; simpl; intros Hs; [constructor|].
  inversion Hs as [|? ? Hs' Hx]; subst.
  apply StronglySorted_snoc; [now apply IH|].
  rewrite Forall_forall in *. intros y Hy. apply Hx. now apply in_rev.
Qed.

Lemma omap_all_map {A B} (f : A -> option B) (g : A -> B) (l : list A) :
  (forall x, In x l -> f x = Some (g x)) -> NLU.omap_all f l = Some (map g l).
Proof.
  induction l as [|x l IH]; simpl; intros H; auto.
  rewrite H by auto. rewrite IH by auto. reflexivity.
Qed.

Lemma omap_all_length {A B} (f : A -> option B) (l : list A) (r : list B) :
  NLU.omap_all f l = Some r -> length r = length l.
Proof.
  revert r. induction l as [|x l IH]; simpl; intros r H.
  - now inversion H.
  - destruct (f x), (NLU.omap_all f l) eqn:E; inversion H; subst. simpl. f_equal. auto.
Qed.

Lemma NoDup_covers (l : list nat) (n : nat) :
  NoDup l -> length l = n -> Forall (fun i => (i < n)%nat) l -> forall i, (i < n)%nat -> In i l.
Proof.
  intros Hnd Hlen Hf i Hi.
  assert (Hincl : incl (seq 0 n) l).
  { apply NoDup_length_incl; auto.
    - rewrite length_seq. lia.
    - intros x Hx. rewrite Forall_forall in Hf. apply in_seq. specialize (Hf x Hx). lia. }
  apply Hincl, in_seq. lia.
Qed.

Lemma slice_last_pos {A} (k : Z) (l : list A) :
  (1 <= k)%Z -> NLU.slice_last k l = skipn (length l - Z.to_nat k) l.
Proof.
  intros Hk. unfold NLU.slice_last.
  replace ((- k <? 0)%Z) with true by (symmetry; apply Z.ltb_lt; lia).
  f_equal. lia.
Qed.

End ListLemmas.

(** ** C3: follow-up detection *)

(** C3 (code bug). The query "Where is it?" contains the pronoun "it" as a
    word and, in a session whose current entity is "Tech Park", has no
    extractable noun; yet the analyzer does not mark it as a follow-up: the
    normalized text keeps the "?" glued to "it", so the space-padded pronoun
    test fails, and the prior context is never consulted. *)
Theorem analyzer_followup_where_is_it (context : Dict PyVal) :
  NLU.preprocess_text "Where is it?" = "where is it?" /\
  NLU.analysis_is_followup "Where is it?" context = false.
Proof. split; reflexivity. Qed.

(** ** C7: the fallback ranker *)

(** X26. When the embeddings do not fault and [top_k >= 1],
    [find_best_matches] returns [min(top_k, n)] pairs [(candidates[i],
    similarity i)] for distinct indices, in non-increasing order of
    similarity, and every candidate left out scores no higher than any
    returned one. The hypotheses on [argsort] say that it returns each index
    once, in ascending order of similarity. *)
Theorem find_best_matches_top_k (cos_sim : string -> string -> option Q)
    (argsort : list Q -> list nat) (query : string) (candidates : list string)
    (top_k : Z) (sims : list Q)
    (Hsims : NLU.omap_all (cos_sim query) candidates = Some sims)
    (Hnd : NoDup (argsort sims))
    (Hlen : length (argsort sims) = length sims)
    (Hrange : Forall (fun i => (i < length sims)%nat) (argsort sims))
    (Hsorted : Sorted (fun i j => nth i sims 0 <= nth j sims 0) (argsort sims))
    (Hk : (1 <= top_k)%Z) :
  exists idx,
    NLU.find_best_matches cos_sim argsort query candidates top_k =
      map (fun i => (nth i candidates "", nth i sims 0)) idx /\
    length idx = Nat.min (Z.to_nat top_k) (length candidates) /\
    NoDup idx /\
    Sorted (fun i j => nth j sims 0 <= nth i sims 0) idx /\
    (forall i j, (i < length candidates)%nat -> ~ In i idx -> In j idx ->
       nth i sims 0 <= nth j sims 0).
Proof.
  pose proof (omap_all_length _ _ _ Hsims) as Hn.
  set (n := length candidates) in *.
  set (l := argsort sims) in *.
  set (m := (length l - Z.to_nat top_k)%nat).
  assert (Hss : StronglySorted (fun i j => nth i sims 0 <= nth j sims 0) l).
  { apply Sorted_StronglySorted; [|exact Hsorted].
    intros x y z Hxy Hyz. eapply Qle_trans; eauto. }
  assert (Hsplit : l = firstn m l ++ skipn m l) by (symmetry; apply firstn_skipn).
  assert (Hin_l : forall i, In i (skipn m l) -> In i l).
  { intros i Hi. rewrite Hsplit. apply in_or_app. now right. }
  assert (Hlt : forall i, In i (rev (skipn m l)) -> (i < n)%nat).
  { intros i Hi. apply in_rev, Hin_l in Hi. rewrite Forall_forall in Hrange.
    specialize (Hrange i Hi). lia. }
  exists (rev (skipn m l)). split; [|split; [|split; [|split]]].
  - unfold NLU.find_best_matches. rewrite Hsims.
    rewrite slice_last_pos by exact Hk. fold l m.
    rewrite (omap_all_map _ (fun i => (nth i candidates "", nth i sims 0))); [reflexivity|].
    intros i Hi. specialize (Hlt i Hi).
    rewrite (nth_error_nth' candidates "") by lia.
    rewrite (nth_error_nth' sims 0) by lia. reflexivity.
  - rewrite length_rev, length_skipn. unfold m. lia.
  - apply NoDup_rev. rewrite Hsplit in Hnd. now apply NoDup_app_remove_l in Hnd.
  - apply StronglySorted_Sorted.
    apply (StronglySorted_rev (fun i j => nth i sims 0 <= nth j sims 0)).
    now apply StronglySorted_skipn.
  - intros i j Hi Hnot Hj.
    assert (Hil : In i l) by (apply (NoDup_covers l (length sims)); auto; lia).
    rewrite Hsplit in Hil. apply in_app_or in Hil as [Hil|Hil].
    + rewrite Hsplit in Hss. apply (StronglySorted_app_inv _ _ _ Hss); auto.
      now apply in_rev.
    + exfalso. apply Hnot. now apply in_rev in Hil.
Qed.

(** C7. Ranking against an empty candidate list returns the empty list,
    for every query, [top_k], embedding provider and argsort. *)
Theorem find_best_matches_empty (cos_sim : string -> string -> option Q)
    (argsort : list Q -> list nat) (query : string) (top_k : Z) :
  NLU.find_best_matches cos_sim argsort query [] top_k = [].
Proof.
  unfold NLU.find_best_matches. simpl.
  destruct (rev (NLU.slice_last top_k (argsort []))) as [|i is]; simpl; [reflexivity|].
  now rewrite nth_error_nil.
Qed.

(** ** C4: the session context update *)

Module SessionFacts.
Import Session.

Lemma resolved_entity_spec (response : Dict PyVal) (e : string) :
  resolved_entity response = Some e <->
  exists c, dict_get "entity" response = Some (PStr e) /\
            dict_get "confidence" response = Some (PNum c) /\
            acceptance_threshold < c.
Proof.
  unfold resolved_entity. split.
  - destruct (dict_get "entity" response) as [[]|]; try discriminate;
    destruct (dict_get "confidence" response) as [[]|]; try discriminate.
    destruct (Qle_bool q acceptance_threshold) eqn:E; simpl; [discriminate|].
    intros H; inversion H; subst. exists q. repeat split.
    apply Qnot_le_lt. intros Hle. apply Qle_bool_iff in Hle. congruence.
  - intros (c & -> & -> & Hc).
    destruct (Qle_bool c acceptance_threshold) eqn:E; [|reflexivity].
    apply Qle_bool_iff in E. exfalso. now apply (Qlt_not_le _ _ Hc).
Qed.

Lemma get_context_set_same (store : Store) (sid : string) (c : SessionContext) :
  get_context (dict_set sid c store) sid = c.
Proof. unfold get_context. now rewrite dict_get_set_same. Qed.

Lemma get_context_set_other (store : Store) (sid sid' : string) (c : SessionContext) :
  sid' <> sid -> get_context (dict_set sid c store) sid' = get_context store sid'.
Proof. intros H. unfold get_context. now rewrite dict_get_set_other. Qed.

End SessionFacts.

Import Session SessionFacts.

(** C4. Processing a turn appends exactly one [ConversationTurn] to the
    session's history; a response whose entity is resolved with confidence
    above 0.6 becomes the session's current entity (with the turn's intent)
    and is recorded as referenced; any other response leaves the current
    entity, current intent and referenced set unchanged; other sessions are
    untouched. *)
Theorem process_update_current_entity (store : Store) (sid query : string)
    (analysis : Analysis) (response : Dict PyVal) :
  let ctx := get_context store sid in
  let store' := process_update store sid query analysis response in
  let ctx' := get_context store' sid in
  history ctx' = history ctx ++ [mkTurn query (a_entities analysis) (a_intent analysis) response] /\
  (forall e c, dict_get "entity" response = Some (PStr e) ->
     dict_get "confidence" response = Some (PNum c) -> acceptance_threshold < c ->
     current_entity ctx' = Some e /\ current_intent ctx' = Some (a_intent analysis) /\
     In e (referenced_entities ctx')) /\
  ((forall c, dict_get "confidence" response = Some (PNum c) -> c <= acceptance_threshold) ->
     current_entity ctx' = current_entity ctx /\ current_intent ctx' = current_intent ctx /\
     referenced_entities ctx' = referenced_entities ctx) /\
  (forall sid', sid' <> sid -> get_context store' sid' = get_context store sid').
Proof.
  intros ctx store' ctx'. unfold ctx', store', process_update.
  rewrite get_context_set_same. fold ctx. unfold update_context.
  split; [|split; [|split]].
  - destruct (resolved_entity response); reflexivity.
  - intros e c He Hc Hlt.
    assert (Hr : resolved_entity response = Some e)
      by (apply resolved_entity_spec; eauto).
    rewrite Hr. simpl. split; [reflexivity|split; [reflexivity|]].
    destruct (existsb (String.eqb e) (referenced_entities ctx)) eqn:E.
    + apply existsb_exists in E as (x & Hx & Exe). apply String.eqb_eq in Exe. now subst.
    + apply in_or_app. right. now left.
  - intros Hle. destruct (resolved_entity response) as [e|] eqn:Hr; [|auto].
    apply resolved_entity_spec in Hr as (c & _ & Hc & Hlt).
    exfalso. apply (Qlt_not_le _ _ Hlt). now apply Hle.
  - intros sid' Hne. now apply get_context_set_other.
Qed.

(** ** The resolution engine's direct match *)

Module EngineFacts.
Import Engine.

Lemma confident_one (r : Dict PyVal) :
  dict_get "confidence" r = Some (PNum 1) -> confident r = inr true.
Proof. unfold confident. intros ->. reflexivity. Qed.

Lemma in_keys_filter {A} (p : string * A -> bool) (k : string) (l : Dict A) :
  In k (map fst (filter p l)) -> In k (map fst l).
Proof.
  intros H. apply in_map_iff in H as (x & <- & Hx).
  apply filter_In in Hx as [Hx _]. now apply in_map.
Qed.

Lemma get_entity_info_miss (kb : KB) (entity intent : string) :
  kb_find kb entity = None -> get_entity_info kb entity intent = inr [("confidence", PNum 0)].
Proof. unfold get_entity_info. now intros ->. Qed.

Lemma get_entity_info_hit (kb : KB) (entity intent category : string) (data : Dict PyVal) :
  kb_find kb entity = Some (category, data) ->
  ~ In "confidence" (map fst data) ->
  (String.eqb intent "facilities" = true ->
     list_or_absent data "facilities" = true /\ list_or_absent data "amenities" = true) ->
  exists r, get_entity_info kb entity intent = inr r /\
            dict_get "confidence" r = Some (PNum 1) /\ confident r = inr true.
Proof.
  intros Hfind Hconf Hfac.
  assert (Hr : forall r, dict_get "confidence" r = Some (PNum 1) ->
                 exists r', (inr r : Exc (Dict PyVal)) = inr r' /\ dict_get "confidence" r' = Some (PNum 1) /\
                            confident r' = inr true)
    by (intros r H; exists r; split; [reflexivity|split; [exact H|now apply confident_one]]).
  unfold get_entity_info. rewrite Hfind.
  destruct (String.eqb intent "location"); [now apply Hr|].
  destruct (String.eqb intent "description"); [now apply Hr|].
  destruct (String.eqb intent "facilities"); [|destruct (String.eqb intent "contact"); [now apply Hr|]].
  - destruct (Hfac eq_refl) as [Hf Ha]. unfold list_or_absent, get_or in *.
    destruct (dict_get "facilities" data) as [[]|]; try discriminate;
    destruct (dict_get "amenities" data) as [[]|]; try discriminate; simpl; now apply Hr.
  - apply Hr. rewrite dict_update_get_other; [reflexivity|].
    intros H. apply Hconf. exact (in_keys_filter _ _ _ H).
Qed.

Lemma first_confident_app (kb : KB) (pre post : list string) (e intent : string) (r : Dict PyVal) :
  (forall x, In x pre -> exists rx, get_entity_info kb x intent = inr rx /\ confident rx = inr false) ->
  get_entity_info kb e intent = inr r -> confident r = inr true ->
  first_confident kb (pre ++ e :: post) intent = inr (Some r).
Proof.
  intros Hpre He Hc. induction pre as [|x pre IH]; simpl.
  - rewrite He. simpl. now rewrite Hc.
  - destruct (Hpre x (or_introl eq_refl)) as (rx & Hx & Hcx).
    rewrite Hx. simpl. rewrite Hcx. simpl. apply IH. intros y Hy. apply Hpre. now right.
Qed.

End EngineFacts.

Import Engine EngineFacts.

(** X25. [_find_best_match] looks the extracted entities up in extraction
    order and returns the response of the first one whose lookup is
    confident (above 0.6), whatever the later ones would give. An exact id
    hit yields confidence 1.0 if the entity's attributes hold no
    ["confidence"] key and, for the facilities intent, its ["facilities"]
    and ["amenities"] are lists or absent. A miss yields confidence 0.0. *)
Theorem find_best_match_first_confident_entity (py_repr : PyVal -> string)
    (semantic_similarity : string -> string -> Q) (cos_sim : string -> string -> option Q)
    (argsort : list Q -> list nat) (kb : KB) (analysis : Analysis) :
  (forall pre e post r,
     a_entities analysis = pre ++ e :: post ->
     (forall x, In x pre -> exists rx,
        get_entity_info kb x (a_intent analysis) = inr rx /\ confident rx = inr false) ->
     get_entity_info kb e (a_intent analysis) = inr r -> confident r = inr true ->
     find_best_match py_repr semantic_similarity cos_sim argsort kb analysis = inr r) /\
  (forall entity intent category data,
     kb_find kb entity = Some (category, data) ->
     ~ In "confidence" (map fst data) ->
     (String.eqb intent "facilities" = true ->
        list_or_absent data "facilities" = true /\ list_or_absent data "amenities" = true) ->
     exists r, get_entity_info kb entity intent = inr r /\
               dict_get "confidence" r = Some (PNum 1) /\ confident r = inr true) /\
  (forall entity intent, kb_find kb entity = None ->
     get_entity_info kb entity intent = inr [("confidence", PNum 0)]).
Proof.
  split; [|split; [exact (get_entity_info_hit kb)|exact (get_entity_info_miss kb)]].
  intros pre e post r Hents Hpre He Hc.
  unfold find_best_match. rewrite Hents.
  rewrite (first_confident_app kb pre post e (a_intent analysis) r Hpre He Hc).
  reflexivity.
Qed.

(** ** C8: the fallback response *)

Lemma insert_desc_length (x : string * Q) (l : list (string * Q)) :
  length (insert_desc x l) = S (length l).
Proof.
  induction l as [|y l IH]; simpl; auto.
  destruct (NLU.Qltb (snd y) (snd x)); simpl; auto.
Qed.

Lemma sort_desc_length (l : list (string * Q)) : length (sort_desc l) = length l.
Proof.
  unfold sort_desc.
  assert (H : forall acc, length (fold_left (fun acc x => insert_desc x acc) l acc)
                          = (length acc + length l)%nat).
  { induction l as [|x l IH]; intros acc; simpl; [lia|].
    rewrite IH, insert_desc_length. lia. }
  rewrite H. reflexivity.
Qed.

Lemma flat_map_all_nil {A B} (f : A -> list B) (l : list A) :
  (forall x, In x l -> f x = []) -> flat_map f l = [].
Proof.
  induction l as [|x l IH]; simpl; intros H; auto.
  rewrite H by auto. apply IH. auto.
Qed.

(** C8. Every fallback response has type "fallback", confidence 0.0 and a
    non-empty list of at most 5 suggestions; when no knowledge-base entity
    is more similar than 0.5 to an extracted entity, the suggestions are the
    five fixed domain-wide questions. *)
Theorem fallback_response_has_suggestions (semantic_similarity : string -> string -> Q)
    (kb : KB) (analysis : Analysis) :
  let r := generate_fallback_response semantic_similarity kb analysis in
  dict_get "type" r = Some (PStr "fallback") /\
  dict_get "confidence" r = Some (PNum 0) /\
  exists suggestions,
    dict_get "suggestions" r = Some (PList (map PStr suggestions)) /\
    suggestions <> [] /\ (length suggestions <= 5)%nat /\
    ((forall x category items kb_entity data,
        In x (a_entities analysis) -> In (category, items) kb -> In (kb_entity, data) items ->
        semantic_similarity x kb_entity <= similarity_floor) ->
     suggestions = generic_suggestions).
Proof.
  intros r. unfold r, generate_fallback_response.
  set (similar := sort_desc (similar_entities semantic_similarity kb (a_entities analysis))).
  split; [reflexivity|split; [reflexivity|]].
  eexists. split; [reflexivity|]. split; [|split].
  - destruct similar as [|[e s] rest]; simpl; discriminate.
  - apply firstn_le_length.
  - intros Hfloor.
    assert (Hnil : similar_entities semantic_similarity kb (a_entities analysis) = []).
    { unfold similar_entities. apply flat_map_all_nil. intros x Hx.
      apply flat_map_all_nil. intros [category items] Hci.
      apply flat_map_all_nil. intros [kb_entity data] Hkd. simpl.
      specialize (Hfloor x category items kb_entity data Hx Hci Hkd).
      unfold NLU.Qltb. apply Qle_bool_iff in Hfloor. now rewrite Hfloor. }
    assert (Hs : similar = []).
    { apply length_zero_iff_nil. unfold similar. rewrite sort_desc_length, Hnil. reflexivity. }
    rewrite Hs. reflexivity.
Qed.

(** ** C9: the admission type *)

Module AdmissionFacts.
Import Admission.

Lemma determine_admission_type_some (query : string) :
  determine_admission_type query <> None.
Proof.
  unfold determine_admission_type.
  repeat match goal with |- context [if ?b then _ else _] => destruct b end; discriminate.
Qed.

Lemma handle_admission_query_no_error (query : string) :
  dict_get "error" (handle_admission_query query) = None.
Proof.
  unfold handle_admission_query, determine_admission_type. cbv zeta.
  repeat match goal with |- context [any_in ?l ?q] => destruct (any_in l q) end;
  reflexivity.
Qed.

End AdmissionFacts.

(** C9. The admission-type classifier returns a type for every query, and
    [DOMESTIC] when the query names none of the other types' keywords; hence
    [handle_admission_query] never returns its "Unable to determine
    admission type" error, nor any ["error"] key. *)
Theorem admission_type_always_determined (query : string) :
  (exists t, Admission.determine_admission_type (str_lower query) = Some t) /\
  (any_in ["international"; "foreign"; "abroad"; "overseas"] query = false ->
   any_in ["nri"; "non resident"; "non-resident"] query = false ->
   any_in ["transfer"; "change university"; "credit transfer"] query = false ->
   Admission.determine_admission_type query = Some Admission.DOMESTIC) /\
  Admission.handle_admission_query query <> Admission.unknown_type_error /\
  dict_get "error" (Admission.handle_admission_query query) = None.
Proof.
  split; [|split; [|split]].
  - destruct (Admission.determine_admission_type (str_lower query)) eqn:E; [eauto|].
    exfalso. exact (AdmissionFacts.determine_admission_type_some _ E).
  - intros H1 H2 H3. unfold Admission.determine_admission_type.
    rewrite H1, H2, H3.
    destruct (any_in ["domestic"; "indian"; "local"; "srmjeee"] query); reflexivity.
  - intros H. assert (Hnone := AdmissionFacts.handle_admission_query_no_error query).
    rewrite H in Hnone. discriminate.
  - apply AdmissionFacts.handle_admission_query_no_error.
Qed.

(** ** Witnesses: the claims' theorems applied at concrete inputs *)

(** C2 witness: adding "Tech Park" with an address twice, and with an
    attribute named ["type"]. *)
Lemma add_entity_merges_witness :
  NoDup (map fst [("address", PStr "SRM Nagar")]) /\
  (exists g',
    add_entity empty_graph "Tech Park" "location" [("address", PStr "SRM Nagar")] = inr g' /\
    add_entity g' "Tech Park" "location" [("address", PStr "SRM Nagar")] = inr g') /\
  NoDup (map fst [("type", PStr "campus")]) /\
  add_entity empty_graph "Tech Park" "location" [("type", PStr "campus")] =
    inl (TypeError "add_node() got multiple values for a keyword argument").
Proof.
  assert (Hnd : NoDup (map fst [("address", PStr "SRM Nagar")]))
    by (simpl; constructor; [simpl; tauto|constructor]).
  assert (Hres : forall k, In k (map fst [("address", PStr "SRM Nagar")]) -> ~ In k reserved_kwargs).
  { simpl. intros k [<-|[]]. simpl. intros [H|[H|[H|[]]]]; discriminate. }
  assert (Hnd2 : NoDup (map fst [("type", PStr "campus")]))
    by (simpl; constructor; [simpl; tauto|constructor]).
  split; [exact Hnd|].
  destruct (proj1 (add_entity_merges_and_is_idempotent empty_graph "Tech Park" "location"
              [("address", PStr "SRM Nagar")] Hnd) Hres) as (g' & H1 & _ & H2).
  split; [exists g'; split; assumption|].
  split; [exact Hnd2|].
  apply (proj2 (add_entity_merges_and_is_idempotent empty_graph "Tech Park" "location"
           [("type", PStr "campus")] Hnd2)).
  exists "type". simpl. tauto.
Defined.

Definition sample_scores (c : string) : option Q :=
  if String.eqb c "b" then Some (1 # 2) else Some (1 # 4).

(** X26 witness: three candidates, the last two tied, [top_k = 2]. *)
Lemma find_best_matches_top_k_witness :
  exists idx,
    NLU.find_best_matches (fun _ => sample_scores) NLU.argsort_stable "q" ["a"; "b"; "c"] 2 =
      map (fun i => (nth i ["a"; "b"; "c"] "", nth i [1 # 4; 1 # 2; 1 # 4] 0)) idx /\
    length idx = 2%nat.
Proof.
  assert (Hsims : NLU.omap_all ((fun _ => sample_scores) "q") ["a"; "b"; "c"] =
                  Some [1 # 4; 1 # 2; 1 # 4]) by reflexivity.
  assert (Hnd : NoDup (NLU.argsort_stable [1 # 4; 1 # 2; 1 # 4])).
  { vm_compute. repeat constructor; simpl; intuition discriminate. }
  assert (Hlen : length (NLU.argsort_stable [1 # 4; 1 # 2; 1 # 4]) = length [1 # 4; 1 # 2; 1 # 4])
    by reflexivity.
  assert (Hrange : Forall (fun i => (i < length [1 # 4; 1 # 2; 1 # 4])%nat)
                          (NLU.argsort_stable [1 # 4; 1 # 2; 1 # 4])).
  { vm_compute. repeat (apply Forall_cons; [lia|]). apply Forall_nil. }
  assert (Hsorted : Sorted (fun i j => nth i [1 # 4; 1 # 2; 1 # 4] 0 <= nth j [1 # 4; 1 # 2; 1 # 4] 0)
                           (NLU.argsort_stable [1 # 4; 1 # 2; 1 # 4])).
  { vm_compute. repeat (constructor; try (intros H; discriminate)). }
  destruct (find_best_matches_top_k (fun _ => sample_scores) NLU.argsort_stable "q" ["a"; "b"; "c"]
              2 [1 # 4; 1 # 2; 1 # 4] Hsims Hnd Hlen Hrange Hsorted ltac:(lia))
    as (idx & H1 & H2 & _).
  exists idx. split; [exact H1|exact H2].
Defined.

Definition sample_graph : Graph :=
  add_node (add_node empty_graph "Tech Park"
              [("type", PStr "location"); ("facilities", PList [PStr "Research Labs"])])
           "Kattankulathur" [("type", PStr "campus"); ("location", PStr "Chennai")].

(** C10 witness: a two-node graph, searched with the empty string and with
    "park" (which matches one node's id). *)
Lemma search_by_text_witness :
  search_by_text (fun _ => "") sample_graph "" = map entity_view (g_nodes sample_graph) /\
  search_by_text (fun _ => "") sample_graph "Park" =
    map entity_view (filter (search_selects (fun _ => "") "park") (g_nodes sample_graph)).
Proof.
  assert (Hwf : graph_wf sample_graph)
    by (unfold sample_graph; apply add_node_wf, add_node_wf, empty_graph_wf).
  destruct (search_by_text_each_node_once (fun _ => "") sample_graph "Park" Hwf) as (H1 & H2 & _).
  split; [exact H1|exact H2].
Defined.

(* ------------------------------------------------------------------ *)
(** ** Relationships of the knowledge graph and the built graph *)

Module KGRelFacts.
Import KG KGRel.

Lemma dict_get_app {V} (k : string) (d e : Dict V) :
  dict_get k (d ++ e) = match dict_get k d with Some x => Some x | None => dict_get k e end.
Proof.
  induction d as [|[k' v'] d IH]; simpl; auto.
  destruct (String.eqb k k'); auto.
Qed.

Lemma query_loop_app (t : string) (f : Dict PyVal) (a b : Dict (Dict PyVal)) :
  query_loop t f (a ++ b) = query_loop t f a ++ query_loop t f b.
Proof.
  induction a as [|n a IH]; simpl; auto.
  destruct (query_selects t f n); simpl; now rewrite IH.
Qed.

(** The node store after [add_edge]: the old one, then the missing
    endpoints, each with an empty attribute dict. *)
Lemma add_edge_nodes (g : Graph) (u v : string) (attr : Dict PyVal) :
  exists extra, g_nodes (add_edge g u v attr) = g_nodes g ++ map (fun n => (n, [])) extra.
Proof.
  unfold add_edge; simpl.
  destruct (dict_mem u (g_nodes g)) eqn:Hu.
  - destruct (dict_mem v (g_nodes g)); [exists []; now rewrite app_nil_r | now exists [v]].
  - destruct (dict_mem v (g_nodes g ++ [(u, [])])).
    + now exists [u].
    + exists [u; v]. now rewrite <- app_assoc.
Qed.

Lemma add_edge_edges (g : Graph) (u v : string) (attr : Dict PyVal) :
  g_edges (add_edge g u v attr) = g_edges g ++ [(u, v, dict_update [] attr)].
Proof. reflexivity. Qed.

Lemma dict_mem_app_l {V} (k : string) (d e : Dict V) :
  dict_mem k d = true -> dict_mem k (d ++ e) = true.
Proof.
  unfold dict_mem. rewrite dict_get_app. destruct (dict_get k d); congruence.
Qed.

Lemma dict_mem_snoc {V} (k : string) (d : Dict V) (x : V) :
  dict_mem k (d ++ [(k, x)]) = true.
Proof.
  unfold dict_mem. rewrite dict_get_app. destruct (dict_get k d); auto.
  simpl. now rewrite String.eqb_refl.
Qed.

Lemma add_edge_has_node (g : Graph) (u v : string) (attr : Dict PyVal) :
  has_node (add_edge g u v attr) u = true /\ has_node (add_edge g u v attr) v = true.
Proof.
  unfold has_node, add_edge; simpl.
  set (d1 := if dict_mem u (g_nodes g) then g_nodes g else g_nodes g ++ [(u, [])]).
  assert (H1 : dict_mem u d1 = true).
  { unfold d1. destruct (dict_mem u (g_nodes g)) eqn:E; auto using dict_mem_snoc. }
  destruct (dict_mem v d1) eqn:E; split; auto using dict_mem_app_l, dict_mem_snoc.
Qed.

Lemma add_edge_node_attrs (g : Graph) (u v : string) (attr : Dict PyVal) (n : string) :
  node_attrs (add_edge g u v attr) n = node_attrs g n.
Proof.
  destruct (add_edge_nodes g u v attr) as [extra He].
  unfold node_attrs. rewrite He, dict_get_app.
  destruct (dict_get n (g_nodes g)); auto.
  clear He. induction extra as [|x extra IH]; [reflexivity|].
  change (map (fun n => (n, [])) (x :: extra)) with ((x, @nil (string * PyVal)) :: map (fun n => (n, [])) extra).
  cbn [dict_get]. destruct (String.eqb n x); [reflexivity|exact IH].
Qed.

Lemma add_edge_query (g : Graph) (u v : string) (attr : Dict PyVal) (t : string) (f : Dict PyVal) :
  query (add_edge g u v attr) t f = query g t f.
Proof.
  destruct (add_edge_nodes g u v attr) as [extra He].
  unfold query. rewrite He, query_loop_app.
  replace (query_loop t f (map (fun n => (n, [])) extra)) with (@nil (Dict PyVal));
    [now rewrite app_nil_r|].
  clear He. induction extra as [|x extra IH]; [reflexivity|].
  change (map (fun n => (n, [])) (x :: extra)) with ((x, @nil (string * PyVal)) :: map (fun n => (n, [])) extra).
  cbn [query_loop]. exact IH.
Qed.

(** ** Out-edges *)

Lemma dedup_acc_not_seen (seen l : list string) (x : string) :
  In x (dedup_acc seen l) -> existsb (String.eqb x) seen = false.
Proof.
  revert seen. induction l as [|y l IH]; simpl; intros seen H; [tauto|].
  destruct (existsb (String.eqb y) seen) eqn:Ey; auto.
  destruct H as [<-|H]; auto.
  apply IH in H. simpl in H. now apply orb_false_iff in H as [_ H].
Qed.

Lemma dedup_acc_incl (seen l : list string) (x : string) :
  In x (dedup_acc seen l) -> In x l.
Proof.
  revert seen. induction l as [|y l IH]; simpl; intros seen H; [tauto|].
  destruct (existsb (String.eqb y) seen); [right; eauto|].
  destruct H as [<-|H]; [now left | right; eauto].
Qed.

Lemma flat_map_ext_in {A B} (f g : A -> list B) (l : list A) :
  (forall a, In a l -> f a = g a) -> flat_map f l = flat_map g l.
Proof.
  induction l as [|a l IH]; simpl; intros H; auto.
  rewrite H by auto. f_equal. auto.
Qed.

Lemma Permutation_filter' {A} (p : A -> bool) (l l' : list A) :
  Permutation l l' -> Permutation (filter p l) (filter p l').
Proof.
  induction 1; simpl.
  - constructor.
  - destruct (p x); auto.
  - destruct (p x), (p y); auto using Permutation_refl. apply perm_swap.
  - eauto using Permutation_trans.
Qed.

Definition dst (e : string * string * Dict PyVal) : string := snd (fst e).
Arguments dst : simpl never.

Lemma filter_split_perm (x : string) (seen : list string) (L : list (string * string * Dict PyVal)) :
  existsb (String.eqb x) seen = false ->
  Permutation (filter (fun e => String.eqb (dst e) x) L ++
               filter (fun e => negb (existsb (String.eqb (dst e)) (x :: seen))) L)
              (filter (fun e => negb (existsb (String.eqb (dst e)) seen)) L).
Proof.
  intros Hx. induction L as [|e L IH]; simpl; [constructor|].
  destruct (String.eqb (dst e) x) eqn:E.
  - apply String.eqb_eq in E. rewrite E, Hx. simpl. rewrite ?String.eqb_refl. simpl.
    now constructor.
  - simpl.
    destruct (existsb (String.eqb (dst e)) seen); simpl; auto.
    apply Permutation_sym, Permutation_cons_app, Permutation_sym, IH.
Qed.

Lemma dedup_flat_map_perm (seen : list string) (L : list (string * string * Dict PyVal)) :
  Permutation (flat_map (fun v => filter (fun e => String.eqb (dst e) v) L)
                        (dedup_acc seen (map dst L)))
              (filter (fun e => negb (existsb (String.eqb (dst e)) seen)) L).
Proof.
  revert seen. induction L as [|e L IH]; intros seen; simpl; [constructor|].
  destruct (existsb (String.eqb (dst e)) seen) eqn:Ex; simpl.
  - rewrite (flat_map_ext_in _ (fun v => filter (fun e => String.eqb (dst e) v) L)); auto.
    intros v Hv. apply dedup_acc_not_seen in Hv.
    destruct (String.eqb (dst e) v) eqn:E; auto.
    apply String.eqb_eq in E. subst v.
    exfalso. congruence.
  - rewrite String.eqb_refl. simpl. constructor.
    rewrite (flat_map_ext_in _ (fun v => filter (fun e => String.eqb (dst e) v) L)).
    + eapply Permutation_trans; [apply Permutation_app_head, IH|].
      now apply filter_split_perm.
    + intros v Hv. apply dedup_acc_not_seen in Hv. simpl in Hv.
      apply orb_false_iff in Hv as [Hv _].
      destruct (String.eqb (dst e) v) eqn:E; auto.
      apply String.eqb_eq in E. rewrite E, String.eqb_refl in Hv. discriminate.
Qed.

Lemma filter_filter {A} (p q : A -> bool) (l : list A) :
  filter p (filter q l) = filter (fun x => q x && p x) l.
Proof.
  induction l as [|x l IH]; simpl; auto.
  destruct (q x); simpl; [destruct (p x); simpl; now rewrite IH | exact IH].
Qed.

Lemma filter_true_all {A} (p : A -> bool) (l : list A) :
  (forall x, p x = true) -> filter p l = l.
Proof. intros H. induction l as [|x l IH]; simpl; auto. now rewrite H, IH. Qed.

(** The out-edges of a node are its edges, grouped by successor. *)
Lemma out_edges_perm (g : Graph) (u : string) :
  has_node g u = true ->
  Permutation (out_edges g u) (filter (fun e => String.eqb (fst (fst e)) u) (g_edges g)).
Proof.
  intros Hu. unfold out_edges, nbunch. rewrite Hu. simpl. rewrite app_nil_r.
  set (L := filter (fun e => String.eqb (fst (fst e)) u) (g_edges g)).
  rewrite (flat_map_ext_in _ (fun v => filter (fun e => String.eqb (dst e) v) L)).
  - unfold succ_order, dict_fromkeys. fold L.
    eapply Permutation_trans; [apply (dedup_flat_map_perm [] L)|].
    simpl. rewrite filter_true_all; auto.
  - intros v _. unfold edge_datas.
    replace (filter (fun e => String.eqb (fst (fst e)) u && String.eqb (snd (fst e)) v) (g_edges g))
      with (filter (fun e => String.eqb (dst e) v) L) by (unfold L; rewrite filter_filter; reflexivity).
    assert (HL : forall e, In e L -> fst (fst e) = u).
    { intros e He. unfold L in He. apply filter_In in He as [_ He]. now apply String.eqb_eq. }
    clearbody L. induction L as [|e L IH]; simpl; auto.
    destruct (String.eqb (dst e) v) eqn:E; simpl.
    + rewrite IH by (intros; apply HL; simpl; auto).
      apply String.eqb_eq in E. f_equal.
      destruct e as [[a b] d].
      assert (Ha : a = u) by (apply (HL (a, b, d)); simpl; auto).
      unfold dst in E. simpl in E. now subst.
    + apply IH. intros; apply HL; simpl; auto.
Qed.

Lemma related_perm_edges (g : Graph) (a : string) (rt : option string) :
  has_node g a = true ->
  Permutation (get_related_entities g a rt)
    (map (related_record g)
         (filter (fun e => String.eqb (fst (fst e)) a && keep_edge rt (snd e)) (g_edges g))).
Proof.
  intros Ha. unfold get_related_entities.
  apply Permutation_map. rewrite <- filter_filter.
  now apply Permutation_filter', out_edges_perm.
Qed.


Lemma nbunch_node (g : Graph) (c : string) : has_node g c = true -> nbunch g c = [c].
Proof. unfold nbunch. now intros ->. Qed.

Lemma query_id_filter_nil (t : string) (v : PyVal) (nodes : Dict (Dict PyVal)) :
  (forall n, In n nodes -> dict_get "id" (snd n) = None) -> query_loop t [("id", v)] nodes = [].
Proof.
  induction nodes as [|n nodes IH]; simpl; intros H; auto.
  unfold query_selects at 1, matches_filters. simpl. rewrite H by auto.
  destruct (dict_get "type" (snd n)); [destruct (py_eqb _ _)|]; simpl; auto.
Qed.

Lemma build_graph_no_id (n : string * Dict PyVal) :
  In n (g_nodes Build.build_graph) -> dict_get "id" (snd n) = None.
Proof.
  assert (H : forallb (fun n : string * Dict PyVal =>
                         match dict_get "id" (snd n) with None => true | Some _ => false end)
                      (g_nodes Build.build_graph) = true) by (vm_compute; reflexivity).
  rewrite forallb_forall in H. intros Hn. specialize (H n Hn).
  destruct (dict_get "id" (snd n)); congruence.
Qed.

(** X1. [add_relationship] adds one edge, plus any missing endpoint with no
    attributes. So [query] gives the same answers as before, every node keeps
    its attribute dict, both endpoints are nodes afterwards, and the edge
    list grows by exactly the new edge. *)
Theorem add_relationship_preserves_nodes (g : Graph) (a b r : string) :
  (forall t f, query (add_relationship g a b r) t f = query g t f) /\
  (forall n, node_attrs (add_relationship g a b r) n = node_attrs g n) /\
  has_node (add_relationship g a b r) a = true /\
  has_node (add_relationship g a b r) b = true /\
  g_edges (add_relationship g a b r) = g_edges g ++ [(a, b, [("relationship", PStr r)])].
Proof.
  unfold add_relationship.
  destruct (add_edge_has_node g a b [("relationship", PStr r)]) as [Ha Hb].
  repeat split; auto.
  - intros t f. apply add_edge_query.
  - intros n. apply add_edge_node_attrs.
Qed.

(** X2. For a node [a], [get_related_entities g a rt] gives one record per
    edge out of [a] that the relationship filter keeps, and no other records.
    The records come grouped by successor, so the result is a permutation of
    the records of those edges taken in insertion order. *)
Theorem get_related_entities_one_per_edge (g : Graph) (a : string) (rt : option string) :
  has_node g a = true ->
  Permutation (get_related_entities g a rt)
    (map (related_record g)
         (filter (fun e => String.eqb (fst (fst e)) a && keep_edge rt (snd e)) (g_edges g))).
Proof. apply related_perm_edges. Qed.

Lemma get_related_entities_one_per_edge_witness :
  has_node Build.build_graph "Engineering" = true /\
  Permutation (get_related_entities Build.build_graph "Engineering" (Some "has_degree"))
    (map (related_record Build.build_graph)
         (filter (fun e => String.eqb (fst (fst e)) "Engineering" && keep_edge (Some "has_degree") (snd e))
                 (g_edges Build.build_graph))).
Proof.
  split; [vm_compute; reflexivity|].
  apply get_related_entities_one_per_edge. vm_compute. reflexivity.
Defined.

(** X3. After [add_relationship g a b r] on a node [a] of [g],
    [get_related_entities] of [a] gives the old records plus one new record
    for [b], if the filter keeps relationship [r]. This holds even when an
    [a]-to-[b] edge is already there: every call adds a parallel edge, so [b]
    is then listed once more. *)
Theorem get_related_entities_add_relationship (g : Graph) (a b r : string) (rt : option string) :
  has_node g a = true ->
  Permutation (get_related_entities (add_relationship g a b r) a rt)
    (get_related_entities g a rt ++
     if keep_edge rt [("relationship", PStr r)]
     then [dict_update [("id", PStr b); ("relationship", PStr r)] (node_attrs g b)] else []).
Proof.
  intros Ha. unfold add_relationship.
  destruct (add_edge_has_node g a b [("relationship", PStr r)]) as [Ha' _].
  eapply Permutation_trans; [apply related_perm_edges; exact Ha'|].
  apply Permutation_sym.
  eapply Permutation_trans; [eapply Permutation_app_tail; apply related_perm_edges, Ha|].
  apply Permutation_sym.
  rewrite add_edge_edges, filter_app, map_app.
  rewrite (map_ext (related_record (add_edge g a b [("relationship", PStr r)])) (related_record g))
    by (intros e; unfold related_record; now rewrite add_edge_node_attrs).
  apply Permutation_app_head. simpl. rewrite String.eqb_refl. simpl.
  destruct (keep_edge rt [("relationship", PStr r)]); simpl; auto.
  unfold related_record. simpl. rewrite add_edge_node_attrs. apply Permutation_refl.
Qed.

Definition rel_sample : Graph := add_relationship empty_graph "a" "b" "r".

Lemma get_related_entities_add_relationship_witness :
  has_node rel_sample "a" = true /\
  Permutation (get_related_entities (add_relationship rel_sample "a" "b" "r") "a" (Some "r"))
    (get_related_entities rel_sample "a" (Some "r") ++
     if keep_edge (Some "r") [("relationship", PStr "r")]
     then [dict_update [("id", PStr "b"); ("relationship", PStr "r")] (node_attrs rel_sample "b")]
     else []).
Proof.
  split; [reflexivity|].
  apply get_related_entities_add_relationship. reflexivity.
Defined.

(** X4. An id that is not a node is iterated by networkx as a string: the
    result is the related records of each of its characters that is a node,
    first occurrences only, in order. When no character is a node, the
    result is empty. *)
Theorem get_related_entities_non_node (g : Graph) (n : string) (rt : option string) :
  has_node g n = false ->
  get_related_entities g n rt =
  flat_map (fun c => get_related_entities g c rt) (dict_fromkeys (filter (has_node g) (chars n))).
Proof.
  intros Hn. unfold get_related_entities, out_edges.
  unfold nbunch at 1. rewrite Hn.
  assert (HX : forall c, In c (dict_fromkeys (filter (has_node g) (chars n))) -> has_node g c = true).
  { intros c Hc. apply dedup_acc_incl, filter_In in Hc. tauto. }
  induction (dict_fromkeys (filter (has_node g) (chars n))) as [|c X IH]; simpl; auto.
  rewrite (nbunch_node g c) by (apply HX; now left). simpl.
  rewrite app_nil_r, filter_app, map_app, IH; auto.
  intros; apply HX; now right.
Qed.

Lemma get_related_entities_non_node_witness :
  has_node rel_sample "ab" = false /\
  get_related_entities rel_sample "ab" None =
  flat_map (fun c => get_related_entities rel_sample c None)
           (dict_fromkeys (filter (has_node rel_sample) (chars "ab"))).
Proof.
  split; [reflexivity|]. apply get_related_entities_non_node. reflexivity.
Defined.

(** X5. No node of the graph built by [__init__] has an ['id'] attribute, so
    every [query] with an ['id'] filter returns [[]], whatever the type and
    the value. *)
Theorem build_graph_query_by_id_empty (t : string) (v : PyVal) :
  query Build.build_graph t [("id", v)] = [].
Proof. apply query_id_filter_nil, build_graph_no_id. Qed.

(** The test that an edge labelled [has_location] starts at
    ["Kattankulathur Campus"]. *)
Definition loc_edge_ok (e : string * string * Dict PyVal) : bool :=
  match dict_get "relationship" (snd e) with
  | Some (PStr r) => negb (String.eqb r "has_location") ||
                     String.eqb (fst (fst e)) "Kattankulathur Campus"
  | _ => true
  end.

Lemma loc_edges_from_kc (es : list (string * string * Dict PyVal)) :
  forallb loc_edge_ok es = true ->
  forall e, In e es ->
    dict_get "relationship" (snd e) = Some (PStr "has_location") ->
    fst (fst e) = "Kattankulathur Campus".
Proof.
  intros H e He Hr. rewrite forallb_forall in H. specialize (H e He).
  unfold loc_edge_ok in H. rewrite Hr, String.eqb_refl in H. simpl in H.
  now apply String.eqb_eq.
Qed.

Lemma build_graph_loc_edges_ok : forallb loc_edge_ok (g_edges Build.build_graph) = true.
Proof. vm_compute. reflexivity. Qed.

(** X6. In the built graph, every [has_location] edge starts at
    ["Kattankulathur Campus"], and no campus has a [has_location] edge: the
    locations' ['location'] value is ["Kattankulathur Campus"], which is not
    a campus name. [add_edge] adds it as a node with no attributes, and its
    [has_location] edges go to the three locations in order. *)
Theorem build_graph_locations_on_untyped_node :
  (forall e, In e (g_edges Build.build_graph) ->
     dict_get "relationship" (snd e) = Some (PStr "has_location") ->
     fst (fst e) = "Kattankulathur Campus") /\
  (forall c, In c (map fst (Build.category "campuses")) ->
     get_related_entities Build.build_graph c (Some "has_location") = []) /\
  has_node Build.build_graph "Kattankulathur Campus" = true /\
  node_attrs Build.build_graph "Kattankulathur Campus" = [] /\
  map (dict_get "id") (get_related_entities Build.build_graph "Kattankulathur Campus" (Some "has_location")) =
  map (fun l => Some (PStr (fst l))) (Build.category "locations").
Proof.
  split; [exact (loc_edges_from_kc (g_edges Build.build_graph) build_graph_loc_edges_ok)|].
  split; [|vm_compute; repeat split].
  intros c Hc. vm_compute in Hc.
  repeat (destruct Hc as [<-|Hc]; [vm_compute; reflexivity|]). destruct Hc.
Qed.

(** X7. [_build_graph] adds the program-to-degree edge once per campus. So in
    the built graph each degree of a program is listed 4 times under
    [has_degree], once for each campus. *)
Theorem build_graph_degrees_repeated (p : string) (pd : Dict PyVal) :
  In (p, pd) (Build.category "programs") ->
  map (dict_get "id") (get_related_entities Build.build_graph p (Some "has_degree")) =
  flat_map (fun d => repeat (Some (PStr (p ++ "_" ++ d))) (length (Build.category "campuses")))
           (Build.str_items (dict_get "degrees" pd)).
Proof.
  intros H. vm_compute in H.
  repeat (destruct H as [H|H]; [injection H as <- <-; vm_compute; reflexivity|]). destruct H.
Qed.

Lemma build_graph_degrees_repeated_witness :
  In (fst (nth 3 (Build.category "programs") ("", [])), snd (nth 3 (Build.category "programs") ("", [])))
     (Build.category "programs") /\
  map (dict_get "id") (get_related_entities Build.build_graph
                         (fst (nth 3 (Build.category "programs") ("", []))) (Some "has_degree")) =
  flat_map (fun d => repeat (Some (PStr (fst (nth 3 (Build.category "programs") ("", [])) ++ "_" ++ d)))
                            (length (Build.category "campuses")))
           (Build.str_items (dict_get "degrees" (snd (nth 3 (Build.category "programs") ("", []))))).
Proof.
  assert (H : In (fst (nth 3 (Build.category "programs") ("", [])),
                  snd (nth 3 (Build.category "programs") ("", [])))
                 (Build.category "programs")) by (vm_compute; right; right; right; left; reflexivity).
  split; [exact H|]. exact (build_graph_degrees_repeated _ _ H).
Defined.

End KGRelFacts.

(* ------------------------------------------------------------------ *)
(** ** Intent, question type and text normalisation *)

Module TextFacts.

Lemma list_ascii_of_string_app (s t : string) :
  list_ascii_of_string (s ++ t) = list_ascii_of_string s ++ list_ascii_of_string t.
Proof. induction s as [|c s IH]; simpl; auto. now rewrite IH. Qed.

Lemma prefix_iff (q s : string) :
  String.prefix q s = true <->
  exists b, list_ascii_of_string s = list_ascii_of_string q ++ b.
Proof.
  revert s. induction q as [|a q IH]; intros s; simpl.
  - split; intros; [exists (list_ascii_of_string s); reflexivity|destruct s; reflexivity].
  - destruct s as [|b s]; simpl.
    + split; [discriminate|]. intros [x H]. discriminate.
    + destruct (ascii_dec a b) as [<-|Hne].
      * rewrite IH. split; intros [x H]; exists x; [now rewrite H|now injection H].
      * split; [discriminate|]. intros [x H]. injection H. congruence.
Qed.

Lemma str_in_iff (q s : string) :
  str_in q s = true <->
  exists a b, list_ascii_of_string s = a ++ list_ascii_of_string q ++ b.
Proof.
  induction s as [|c s IH]; cbn [str_in list_ascii_of_string].
  - split.
    + intros H. apply String.eqb_eq in H. subst. now exists [], [].
    + intros (a & b & H). destruct a, q; simpl in H; try discriminate. reflexivity.
  - rewrite orb_true_iff, IH, prefix_iff. split.
    + intros [(b & H)|(a & b & H)].
      * exists [], b. simpl. now rewrite <- H.
      * exists (c :: a), b. simpl. now rewrite H.
    + intros ([|c' a] & b & H); simpl in H.
      * left. exists b. now rewrite <- H.
      * right. injection H as <- H. eauto.
Qed.

Lemma str_in_lstrip (q s : string) :
  q <> "" -> forallb (fun c => negb (NLU.is_space c)) (list_ascii_of_string q) = true ->
  str_in q s = true -> str_in q (Engine.lstrip s) = true.
Proof.
  intros Hq Hsp. induction s as [|c s IH]; simpl; auto.
  destruct (NLU.is_space c) eqn:Ec; auto.
  intros H. apply IH. apply orb_true_iff in H as [H|H]; auto.
  destruct q as [|c0 q]; [congruence|]. simpl in H, Hsp.
  destruct (ascii_dec c0 c) as [<-|]; [|discriminate].
  rewrite Ec in Hsp. discriminate.
Qed.

Lemma str_in_rev (q s : string) :
  str_in q s = true ->
  str_in (string_of_list_ascii (rev (list_ascii_of_string q)))
         (string_of_list_ascii (rev (list_ascii_of_string s))) = true.
Proof.
  rewrite !str_in_iff, !list_ascii_of_string_of_list_ascii.
  intros (a & b & H). exists (rev b), (rev a). rewrite H, !rev_app_distr, app_assoc. reflexivity.
Qed.

(** A non-empty substring without whitespace survives [str.strip()]. *)
Lemma str_in_strip (q s : string) :
  q <> "" -> forallb (fun c => negb (NLU.is_space c)) (list_ascii_of_string q) = true ->
  str_in q s = true -> str_in q (Engine.strip s) = true.
Proof.
  intros Hq Hsp H. unfold Engine.strip.
  set (rq := string_of_list_ascii (rev (list_ascii_of_string q))).
  assert (Hrq : rq <> "").
  { unfold rq. destruct q as [|c q]; [congruence|]. simpl.
    destruct (rev (list_ascii_of_string q)); discriminate. }
  assert (Hrsp : forallb (fun c => negb (NLU.is_space c)) (list_ascii_of_string rq) = true).
  { unfold rq. rewrite list_ascii_of_string_of_list_ascii, forallb_forall.
    rewrite forallb_forall in Hsp. intros c Hc. apply Hsp, in_rev, Hc. }
  apply (str_in_lstrip q s Hq Hsp), str_in_rev in H. fold rq in H.
  apply (str_in_lstrip rq _ Hrq Hrsp), str_in_rev in H.
  unfold rq in H. rewrite list_ascii_of_string_of_list_ascii, rev_involutive,
    string_of_list_ascii_of_string in H.
  exact H.
Qed.

Lemma filter_true_all_in {A} (p : A -> bool) (l : list A) :
  (forall x, In x l -> p x = true) -> filter p l = l.
Proof.
  induction l as [|x l IH]; simpl; intros H; auto. rewrite H, IH; auto.
Qed.

Lemma str_in_prefix_part (p r s : string) :
  str_in (p ++ r) s = true -> str_in p s = true.
Proof.
  rewrite !str_in_iff, list_ascii_of_string_app.
  intros (a & b & H). exists a, (list_ascii_of_string r ++ b). now rewrite H, <- !app_assoc.
Qed.

(** X8. [detect_intent] checks ['location'] before ['contact'], and
    ['reach'] is a location pattern. So any text whose lowercase contains
    ["reach out"] is classed ['location'], and the contact pattern
    ["reach out"] never decides. *)
Theorem detect_intent_reach_out_is_location (text : string) :
  str_in "reach out" (str_lower text) = true -> NLUDetect.detect_intent text = "location".
Proof.
  intros H. apply (str_in_prefix_part "reach" " out") in H.
  apply str_in_strip in H; [|discriminate|reflexivity].
  unfold NLUDetect.detect_intent. cbn [find NLUDetect.intent_patterns snd].
  replace (any_in ["where"; "location"; "address"; "directions"; "find"; "reach"]
                  (Engine.strip (str_lower text))) with true; [reflexivity|].
  symmetry. unfold any_in. apply existsb_exists. exists "reach". split; [simpl; tauto|exact H].
Qed.

Lemma detect_intent_reach_out_is_location_witness :
  str_in "reach out" (str_lower "How do I reach out to the admissions office?") = true /\
  NLUDetect.detect_intent "How do I reach out to the admissions office?" = "location".
Proof.
  split; [reflexivity|]. apply detect_intent_reach_out_is_location. reflexivity.
Defined.

(** X9. ['factual'] is tested first and has the pattern [which]. So any
    text whose lowercase contains ["which"] is ['factual'], even when it
    also has a comparative word such as ["better"] or ["compare"]. *)
Theorem detect_question_type_which_is_factual (text : string) :
  str_in "which" (str_lower text) = true -> NLUDetect.detect_question_type text = "factual".
Proof.
  intros H. apply str_in_strip in H; [|discriminate|reflexivity].
  unfold NLUDetect.detect_question_type. cbn [find NLUDetect.question_patterns snd].
  replace (existsb (NLUDetect.pattern_matches (Engine.strip (str_lower text)))
             [NLUDetect.Search ["what is"; "what are"]; NLUDetect.Search ["where is"; "where are"];
              NLUDetect.Search ["when is"; "when are"]; NLUDetect.Search ["who is"; "who are"];
              NLUDetect.Search ["which"]]) with true; [reflexivity|].
  symmetry. apply existsb_exists. exists (NLUDetect.Search ["which"]).
  split; [simpl; tauto|]. simpl. unfold any_in. simpl. now rewrite H.
Qed.

Lemma detect_question_type_which_is_factual_witness :
  str_in "which" (str_lower "Which is better, KTR or Delhi?") = true /\
  NLUDetect.detect_question_type "Which is better, KTR or Delhi?" = "factual".
Proof.
  split; [reflexivity|]. apply detect_question_type_which_is_factual. reflexivity.
Defined.


Lemma lower_ascii_idem (c : ascii) : lower_ascii (lower_ascii c) = lower_ascii c.
Proof. destruct c as [[] [] [] [] [] [] [] []]; reflexivity. Qed.

Lemma kept_char_not_space (c : ascii) :
  (NLU.is_word_char c || Ascii.eqb c "?"%char) && NLU.is_space c = false.
Proof. destruct c as [[] [] [] [] [] [] [] []]; reflexivity. Qed.

Lemma strip_special_lower_chars (s : string) (c : ascii) :
  In c (list_ascii_of_string (NLU.strip_special (str_lower s))) ->
  lower_ascii c = c /\
  (NLU.is_word_char c || NLU.is_space c || Ascii.eqb c "?"%char) = true.
Proof.
  induction s as [|c0 s IH]; simpl; [tauto|]. intros [<-|H]; auto.
  destruct (NLU.is_word_char (lower_ascii c0) || NLU.is_space (lower_ascii c0) ||
            Ascii.eqb (lower_ascii c0) "?"%char) eqn:E.
  - split; [apply lower_ascii_idem|exact E].
  - split; reflexivity.
Qed.

Lemma split_ws_chars (s w : string) (c : ascii) :
  In w (NLU.split_ws s) -> In c (list_ascii_of_string w) ->
  In c (list_ascii_of_string s) /\ NLU.is_space c = false.
Proof.
  revert w. induction s as [|c0 s IH]; intros w Hw Hc; simpl in Hw.
  - destruct Hw as [<-|[]]. destruct Hc.
  - simpl. destruct (NLU.is_space c0) eqn:Es.
    + destruct Hw as [<-|Hw]; [destruct Hc|]. destruct (IH w Hw Hc); auto.
    + destruct (NLU.split_ws s) as [|w0 ws] eqn:E.
      * destruct Hw as [<-|[]]. simpl in Hc. destruct Hc as [<-|[]]; auto.
      * destruct Hw as [<-|Hw].
        -- simpl in Hc. destruct Hc as [<-|Hc]; auto.
           destruct (IH w0 (or_introl eq_refl) Hc); auto.
        -- destruct (IH w (or_intror Hw) Hc); auto.
Qed.

Lemma concat_space_chars (ws : list string) (c : ascii) :
  In c (list_ascii_of_string (String.concat " " ws)) ->
  c = " "%char \/ exists w, In w ws /\ In c (list_ascii_of_string w).
Proof.
  induction ws as [|w ws IH]; simpl; [tauto|].
  destruct ws as [|w' ws'].
  - intros H. right. exists w. auto.
  - rewrite !list_ascii_of_string_app. intros H.
    apply in_app_or in H as [H|H]; [right; exists w; auto|].
    destruct H as [<-|H]; [now left|].
    destruct (IH H) as [Hc|(w0 & Hw0 & Hc)]; [now left|right; exists w0; auto].
Qed.

Lemma str_lower_fixed (s : string) :
  (forall c, In c (list_ascii_of_string s) -> lower_ascii c = c) -> str_lower s = s.
Proof.
  induction s as [|c s IH]; simpl; intros H; auto.
  rewrite H, IH; auto.
Qed.

Lemma strip_special_fixed (s : string) :
  (forall c, In c (list_ascii_of_string s) ->
     (NLU.is_word_char c || NLU.is_space c || Ascii.eqb c "?"%char) = true) ->
  NLU.strip_special s = s.
Proof.
  induction s as [|c s IH]; simpl; intros H; auto.
  rewrite H, IH; auto.
Qed.

Lemma split_ws_word (w : string) :
  (forall c, In c (list_ascii_of_string w) -> NLU.is_space c = false) -> NLU.split_ws w = [w].
Proof.
  induction w as [|c w IH]; simpl; intros H; auto.
  rewrite H, IH; auto.
Qed.

Lemma split_ws_app_space (w s : string) :
  (forall c, In c (list_ascii_of_string w) -> NLU.is_space c = false) ->
  NLU.split_ws (w ++ String " " s) = w :: NLU.split_ws s.
Proof.
  induction w as [|c w IH]; simpl; intros H; auto.
  rewrite H, IH; auto.
Qed.

Lemma split_ws_concat (ws : list string) :
  ws <> [] ->
  Forall (fun w => forall c, In c (list_ascii_of_string w) -> NLU.is_space c = false) ws ->
  NLU.split_ws (String.concat " " ws) = ws.
Proof.
  induction ws as [|w ws IH]; intros Hne Hf; [congruence|].
  inversion Hf as [|? ? Hw Hf']; subst.
  destruct ws as [|w' ws'].
  - simpl. now apply split_ws_word.
  - change (String.concat " " (w :: w' :: ws')) with ((w ++ String " " (String.concat " " (w' :: ws')))%string).
    rewrite split_ws_app_space by auto. f_equal. apply IH; auto. discriminate.
Qed.

Lemma py_split_concat (ws : list string) :
  Forall (fun w => w <> "" /\ forall c, In c (list_ascii_of_string w) -> NLU.is_space c = false) ws ->
  NLU.py_split (String.concat " " ws) = ws.
Proof.
  intros Hf. destruct ws as [|w ws]; [reflexivity|].
  unfold NLU.py_split. rewrite split_ws_concat; [|discriminate|].
  - apply filter_true_all_in. intros x Hx.
    rewrite Forall_forall in Hf. destruct (Hf x Hx) as [Hx' _].
    destruct (String.eqb x "") eqn:E; auto. apply String.eqb_eq in E. congruence.
  - eapply Forall_impl; [|exact Hf]. simpl. tauto.
Qed.

(** X10. [preprocess_text] returns its words joined by single spaces. Each
    word is non-empty and made of lowercase word characters and ['?'] only.
    Applying it twice gives the same text as applying it once. *)
Theorem preprocess_text_normal_form (text : string) :
  (exists ws, NLU.preprocess_text text = String.concat " " ws /\
     Forall (fun w => w <> "" /\
               forall c, In c (list_ascii_of_string w) ->
                 lower_ascii c = c /\ (NLU.is_word_char c || Ascii.eqb c "?"%char) = true) ws) /\
  NLU.preprocess_text (NLU.preprocess_text text) = NLU.preprocess_text text.
Proof.
  set (ws := NLU.py_split (NLU.strip_special (str_lower text))).
  assert (Hws : Forall (fun w => w <> "" /\
               forall c, In c (list_ascii_of_string w) ->
                 lower_ascii c = c /\ (NLU.is_word_char c || Ascii.eqb c "?"%char) = true) ws).
  { apply Forall_forall. intros w Hw. unfold ws, NLU.py_split in Hw.
    apply filter_In in Hw as [Hw Hne]. split.
    - intros ->. discriminate.
    - intros c Hc. destruct (split_ws_chars _ _ _ Hw Hc) as [Hin Hsp].
      destruct (strip_special_lower_chars _ _ Hin) as [Hl Hk].
      split; auto. rewrite Hsp, orb_false_r in Hk. exact Hk. }
  assert (Hpp : NLU.preprocess_text text = String.concat " " ws) by reflexivity.
  split; [exists ws; auto|].
  rewrite Hpp. unfold NLU.preprocess_text.
  rewrite Forall_forall in Hws.
  rewrite str_lower_fixed, strip_special_fixed, py_split_concat; auto.
  - apply Forall_forall. intros w Hw. destruct (Hws w Hw) as [Hne Hc]. split; auto.
    intros c Hin. destruct (Hc c Hin) as [_ Hk].
    pose proof (kept_char_not_space c) as Hn. rewrite Hk in Hn. exact Hn.
  - intros c Hin. apply concat_space_chars in Hin as [->|(w & Hw & Hin)]; [reflexivity|].
    destruct (Hws w Hw) as [_ Hc]. destruct (Hc c Hin) as [_ Hk].
    rewrite orb_true_iff in Hk |- *. rewrite orb_true_iff. tauto.
  - intros c Hin. apply concat_space_chars in Hin as [->|(w & Hw & Hin)]; [reflexivity|].
    destruct (Hws w Hw) as [_ Hc]. apply (Hc c Hin).
Qed.

End TextFacts.

(* ------------------------------------------------------------------ *)
(** ** Admission answers and candidate formatting *)

Module AdmissionExtras.
Import Admission AdmissionFields.

(** X11. [handle_admission_query] always answers with a non-empty dict
    without repeated keys. Its entries are fields of the requirements record
    of the admission type found in the lowercased query. *)
Theorem handle_admission_query_fields (query : string) :
  exists t, determine_admission_type (str_lower query) = Some t /\
    handle_admission_query query <> [] /\
    NoDup (map fst (handle_admission_query query)) /\
    (forall k v, In (k, v) (handle_admission_query query) ->
                 In (k, v) (all_fields (admission_requirements t))).
Proof.
  destruct (determine_admission_type (str_lower query)) as [t|] eqn:Ht;
    [|exfalso; exact (AdmissionFacts.determine_admission_type_some _ Ht)].
  exists t. unfold handle_admission_query. rewrite Ht. cbv zeta. unfold all_fields.
  repeat match goal with |- context [any_in ?l ?q] => destruct (any_in l q) end;
  simpl; (split; [reflexivity|]); (split; [discriminate|]);
  (split; [repeat constructor; simpl; intuition discriminate|]);
  intros k v H; tauto.
Qed.

(** X12. A field is in the answer exactly when one of its keywords occurs
    in the lowercased query, or when no field's keywords occur at all. *)
Theorem handle_admission_query_field_selection (query k : string) (kws : list string) :
  In (k, kws) field_keywords ->
  (dict_mem k (handle_admission_query query) = true <->
   any_in kws (str_lower query) = true \/
   forallb (fun fk => negb (any_in (snd fk) (str_lower query))) field_keywords = true).
Proof.
  intros Hin. rewrite <- orb_true_iff. apply Bool.eq_iff_eq_true.
  destruct (determine_admission_type (str_lower query)) as [t|] eqn:Ht;
    [|exfalso; exact (AdmissionFacts.determine_admission_type_some _ Ht)].
  unfold handle_admission_query. rewrite Ht. cbv zeta. unfold field_keywords in *.
  simpl in Hin.
  repeat (destruct Hin as [Hin|Hin]; [injection Hin as <- <-|]); [..|destruct Hin];
  cbn [forallb snd];
  repeat match goal with |- context [any_in ?l ?q] => destruct (any_in l q) end;
  reflexivity.
Qed.

Lemma handle_admission_query_field_selection_witness :
  In ("contact", ["contact"; "email"; "reach"]) field_keywords /\
  (dict_mem "contact" (handle_admission_query "What is the email for NRI admission?") = true <->
   any_in ["contact"; "email"; "reach"] (str_lower "What is the email for NRI admission?") = true \/
   forallb (fun fk => negb (any_in (snd fk) (str_lower "What is the email for NRI admission?")))
           field_keywords = true).
Proof.
  assert (H : In ("contact", ["contact"; "email"; "reach"]) field_keywords)
    by (simpl; tauto).
  split; [exact H|]. exact (handle_admission_query_field_selection _ _ _ H).
Defined.

End AdmissionExtras.

Module EngineExtras.
Import Engine.

Lemma split_colon_at (e d : string) :
  (forall c, In c (list_ascii_of_string e) -> c <> ":"%char) ->
  split_colon (e ++ String ":" d) = (e, Some d).
Proof.
  induction e as [|c e IH]; simpl; intros H; auto.
  destruct (Ascii.eqb c ":") eqn:E.
  - apply Ascii.eqb_eq in E. exfalso. apply (H c); auto.
  - rewrite IH; auto.
Qed.

Lemma split_colon_none (s : string) :
  (forall c, In c (list_ascii_of_string s) -> c <> ":"%char) -> split_colon s = (s, None).
Proof.
  induction s as [|c s IH]; simpl; intros H; auto.
  destruct (Ascii.eqb c ":") eqn:E.
  - apply Ascii.eqb_eq in E. exfalso. apply (H c); auto.
  - rewrite IH; auto.
Qed.

(** X13. A description candidate [f"{entity}: {description}"] splits back
    into its parts when the entity name has no colon: the response's
    ['entity'] is the stripped name, its ['description'] the stripped
    description (which may itself hold colons), and its ['confidence'] the
    given score. *)
Theorem format_candidate_response_description (entity description : string) (confidence : Q) :
  (forall c, In c (list_ascii_of_string entity) -> c <> ":"%char) ->
  dict_get "entity" (format_candidate_response (entity ++ ": " ++ description) confidence) =
    Some (PStr (strip entity)) /\
  dict_get "description" (format_candidate_response (entity ++ ": " ++ description) confidence) =
    Some (PStr (strip description)) /\
  dict_get "confidence" (format_candidate_response (entity ++ ": " ++ description) confidence) =
    Some (PNum confidence).
Proof.
  intros H. unfold format_candidate_response.
  change ((": " ++ description)%string) with (String ":" (String " " description)).
  rewrite split_colon_at by exact H. simpl.
  change (lstrip (String " " description)) with (lstrip description).
  repeat split.
Qed.

Lemma format_candidate_response_description_witness :
  (forall c, In c (list_ascii_of_string "Tech Park") -> c <> ":"%char) /\
  dict_get "entity" (format_candidate_response ("Tech Park" ++ ": " ++ "Labs: 3 floors") 1) =
    Some (PStr (strip "Tech Park")) /\
  dict_get "description" (format_candidate_response ("Tech Park" ++ ": " ++ "Labs: 3 floors") 1) =
    Some (PStr (strip "Labs: 3 floors")) /\
  dict_get "confidence" (format_candidate_response ("Tech Park" ++ ": " ++ "Labs: 3 floors") 1) =
    Some (PNum 1).
Proof.
  assert (H : forall c, In c (list_ascii_of_string "Tech Park") -> c <> ":"%char).
  { intros c Hc. simpl in Hc. intuition (subst; discriminate). }
  split; [exact H|]. exact (format_candidate_response_description _ _ 1 H).
Defined.

(** X14. An address candidate [f"{entity} is located at {address}"] with no
    colon is answered with type ['location'], with the whole stripped
    sentence as ['entity'] and an empty ['description']. *)
Theorem format_candidate_response_address (entity address : string) (confidence : Q) :
  (forall c, In c (list_ascii_of_string entity) -> c <> ":"%char) ->
  (forall c, In c (list_ascii_of_string address) -> c <> ":"%char) ->
  format_candidate_response (entity ++ " is located at " ++ address) confidence =
  [("type", PStr "location");
   ("entity", PStr (strip (entity ++ " is located at " ++ address)));
   ("description", PStr ""); ("confidence", PNum confidence)].
Proof.
  intros He Ha. unfold format_candidate_response.
  rewrite split_colon_none.
  - replace (str_in "located at" (entity ++ " is located at " ++ address)) with true; [reflexivity|].
    symmetry. apply TextFacts.str_in_iff.
    exists (list_ascii_of_string (entity ++ " is ")), (list_ascii_of_string (" " ++ address)).
    rewrite !TextFacts.list_ascii_of_string_app. simpl. now rewrite <- app_assoc.
  - intros c Hc. rewrite !TextFacts.list_ascii_of_string_app in Hc.
    apply in_app_or in Hc as [Hc|Hc]; [now apply He|].
    simpl in Hc. repeat (destruct Hc as [<-|Hc]; [discriminate|]). now apply Ha.
Qed.

Lemma format_candidate_response_address_witness :
  (forall c, In c (list_ascii_of_string "Sikkim") -> c <> ":"%char) /\
  (forall c, In c (list_ascii_of_string "Gangtok") -> c <> ":"%char) /\
  format_candidate_response ("Sikkim" ++ " is located at " ++ "Gangtok") 1 =
  [("type", PStr "location");
   ("entity", PStr (strip ("Sikkim" ++ " is located at " ++ "Gangtok")));
   ("description", PStr ""); ("confidence", PNum 1)].
Proof.
  assert (H1 : forall c, In c (list_ascii_of_string "Sikkim") -> c <> ":"%char).
  { intros c Hc. simpl in Hc. intuition (subst; discriminate). }
  assert (H2 : forall c, In c (list_ascii_of_string "Gangtok") -> c <> ":"%char).
  { intros c Hc. simpl in Hc. intuition (subst; discriminate). }
  split; [exact H1|]. split; [exact H2|]. exact (format_candidate_response_address _ _ 1 H1 H2).
Defined.

End EngineExtras.

(* ------------------------------------------------------------------ *)
(** ** The ORB assistant *)

Module OrbFacts.
Import KG KGRel Orb.

Section Providers.

Variable py_repr : PyVal -> string.
Variable tp_format_response : QuestionType -> PyVal -> OExc string.
Variable orb_format_response : Dict PyVal -> OExc string.
Variable set_list : list string -> list string.

Lemma process_by_type_state (g : Graph) (st : OrbState) (qt : QuestionType)
    (es : list string) (ctx : Dict CtxVal) :
  let st' := fst (process_by_type py_repr tp_format_response orb_format_response g st qt es ctx) in
  last_question_type st' = last_question_type st /\ last_entities st' = last_entities st /\
  conversation_history st' = conversation_history st.
Proof.
  destruct qt; simpl; auto.
  unfold handle_location_query.
  destruct (location_loop py_repr g es [] (follow_up_context st)).
  destruct (tp_format_response _ _); simpl; auto.
Qed.

Lemma set_last_response_snoc (h : list (Dict PyVal)) (e r : Dict PyVal) :
  set_last_response (h ++ [e]) r = h ++ [dict_set "response" (PDict r) e].
Proof.
  unfold set_last_response. rewrite rev_app_distr. simpl. now rewrite rev_involutive.
Qed.

Lemma factual_entities_no_id (g : Graph) (et : string) (l : list string) (info : Dict PyVal) :
  (forall n, In n (g_nodes g) -> dict_get "id" (snd n) = None) ->
  factual_entities g et l info = info.
Proof.
  intros Hg. revert info. induction l as [|e l IH]; intros info; simpl; auto.
  unfold query. rewrite KGRelFacts.query_id_filter_nil by exact Hg. apply IH.
Qed.

Lemma location_loop_no_id (g : Graph) (entities : list string) (data : list (Dict PyVal))
    (fuc : Dict string) :
  (forall n, In n (g_nodes g) -> dict_get "id" (snd n) = None) ->
  fst (location_loop py_repr g entities data fuc) =
    data ++ flat_map (search_by_text py_repr g) entities /\
  (forall k, k <> "search_terms" ->
     dict_get k (snd (location_loop py_repr g entities data fuc)) = dict_get k fuc).
Proof.
  intros Hg. revert data fuc. induction entities as [|e es IH]; intros data fuc; simpl.
  - now rewrite app_nil_r.
  - unfold query. rewrite !KGRelFacts.query_id_filter_nil by exact Hg.
    destruct (search_by_text py_repr g e) as [|r rs] eqn:Es.
    + apply IH.
    + destruct (IH (data ++ r :: rs) (dict_set "search_terms" e fuc)) as [H1 H2].
      split; [rewrite H1; now rewrite <- app_assoc|].
      intros k Hk. rewrite H2 by exact Hk. now apply dict_get_set_other.
Qed.

(** X15. [process_query] overwrites ['last_question_type'] and
    ['last_entities'] before anything reads them. So the follow-up test,
    reference resolution and fallback never see the previous turn's
    entities: the call behaves as on a state where both are [None]. *)
Theorem process_query_ignores_previous_turn (g : Graph) (st : OrbState)
    (query timestamp : string) (cls : Classification) :
  process_query py_repr tp_format_response orb_format_response set_list g st query timestamp cls =
  process_query py_repr tp_format_response orb_format_response set_list g
    (mkOrbState None None (conversation_history st) (follow_up_context st)) query timestamp cls.
Proof. destruct st. reflexivity. Qed.

(** X16. After [process_query], ['last_question_type'] and ['last_entities']
    hold the classification's type and entities. The history has grown by
    exactly one entry with the query and its timestamp. When no exception
    escapes, that entry also holds the returned response. *)
Theorem process_query_records_turn (g : Graph) (st : OrbState)
    (query timestamp : string) (cls : Classification) :
  let (st', result) :=
    process_query py_repr tp_format_response orb_format_response set_list g st query timestamp cls in
  last_question_type st' = Some (c_type cls) /\
  last_entities st' = Some (c_entities cls) /\
  conversation_history st' =
    conversation_history st ++
    [match result with
     | inl _ => [("query", PStr query); ("timestamp", PStr timestamp)]
     | inr response =>
         [("query", PStr query); ("timestamp", PStr timestamp); ("response", PDict response)]
     end].
Proof.
  unfold process_query. cbn zeta.
  match goal with |- context [process_by_type ?a ?b ?c ?d ?e ?f ?h ?i] =>
    pose proof (process_by_type_state d e f h i) as Hs;
    destruct (process_by_type a b c d e f h i) as [st2 [err|response]]
  end; cbn [fst] in Hs; destruct Hs as (H1 & H2 & H3); cbv beta iota;
  rewrite H1, H2, H3; cbn [last_question_type last_entities conversation_history];
  repeat split.
  now rewrite set_last_response_snoc.
Qed.

(** X17. The [_handle_procedural_query] that [_process_by_type] calls
    returns only ['type'] and ['steps'], with no ['information'] and no
    ['formatted_answer']. So [process_query] always replaces its answer
    with [_handle_fallback], and the campus-transfer steps are never
    returned. *)
Theorem process_query_procedural_falls_back (g : Graph) (st : OrbState)
    (query timestamp : string) (cls : Classification) :
  c_type cls = PROCEDURAL ->
  snd (process_query py_repr tp_format_response orb_format_response set_list g st query timestamp cls) =
  inr (handle_fallback query (c_entities cls) (c_entities cls)).
Proof.
  intros Ht. unfold process_query. rewrite Ht. cbn zeta.
  match goal with |- context [process_by_type ?a ?b ?c ?d ?e PROCEDURAL ?i ?j] =>
    generalize i; intros ents end.
  cbn [process_by_type]. unfold handle_procedural_query.
  destruct (existsb (String.eqb "change campus") ents || existsb (String.eqb "campus transfer") ents);
    reflexivity.
Qed.

(** X18. The [_handle_comparative_query] that [_process_by_type] calls
    reads [entities['campuses']] from the context dict, which has no
    ['campuses'] key. So a comparative question always raises [KeyError]. *)
Theorem process_query_comparative_key_error (g : Graph) (st : OrbState)
    (query timestamp : string) (cls : Classification) :
  c_type cls = COMPARATIVE ->
  snd (process_query py_repr tp_format_response orb_format_response set_list g st query timestamp cls) =
  inl (KeyErr "campuses").
Proof.
  intros Ht. unfold process_query. rewrite Ht. cbn zeta.
  simpl process_by_type. unfold handle_comparative_query.
  destruct (c_context cls); reflexivity.
Qed.

(** X19. A factual question whose context lacks a time or a location
    reference raises [TypeError]: the handler iterates over [None]. *)
Theorem process_query_factual_none_reference (g : Graph) (st : OrbState)
    (query timestamp : string) (cls : Classification) (c : ExtractedContext) :
  c_type cls = FACTUAL -> c_context cls = Some c ->
  time_reference c = None \/ location_reference c = None ->
  snd (process_query py_repr tp_format_response orb_format_response set_list g st query timestamp cls) =
  inl (TypeErr "'NoneType' object is not iterable").
Proof.
  intros Ht Hc Hn. unfold process_query. rewrite Ht, Hc. cbn zeta.
  simpl process_by_type. unfold handle_factual_query. simpl ctx_dict.
  destruct c as [tr lr ca rq]; simpl in Hn |- *.
  destruct Hn as [->| ->]; simpl; [reflexivity|].
  destruct tr; reflexivity.
Qed.

(** X20. On a graph where no node has an ['id'] attribute (such as the one
    [__init__] builds), a factual question always raises. It is
    [TypeError] when a time or location reference is missing, and
    otherwise [AttributeError], from [search_by_text] given a list. *)
Theorem process_query_factual_raises_without_ids (g : Graph) (st : OrbState)
    (query timestamp : string) (cls : Classification) :
  c_type cls = FACTUAL ->
  (forall n, In n (g_nodes g) -> dict_get "id" (snd n) = None) ->
  snd (process_query py_repr tp_format_response orb_format_response set_list g st query timestamp cls) =
  inl (match c_context cls with
       | Some c =>
           match time_reference c, location_reference c with
           | Some _, Some _ => AttributeErr "'list' object has no attribute 'lower'"
           | _, _ => TypeErr "'NoneType' object is not iterable"
           end
       | None => AttributeErr "'list' object has no attribute 'lower'"
       end).
Proof.
  intros Ht Hg. unfold process_query. rewrite Ht. cbn zeta.
  simpl process_by_type. unfold handle_factual_query.
  destruct (c_context cls) as [[tr lr ca rq]|]; simpl; [|reflexivity].
  destruct tr as [t|]; simpl; [|reflexivity].
  rewrite factual_entities_no_id by exact Hg.
  destruct lr as [l|]; simpl; [|reflexivity].
  rewrite !factual_entities_no_id by exact Hg. reflexivity.
Qed.

(** X21. On a graph where no node has an ['id'] attribute, the campus and
    location lookups of [_handle_location_query] find nothing. The answer's
    ['information'] is the text-search results of each entity, in order,
    and the follow-up context changes at most its ['search_terms'] key. *)
Theorem handle_location_query_text_search (g : Graph) (st : OrbState) (entities : list string) :
  (forall n, In n (g_nodes g) -> dict_get "id" (snd n) = None) ->
  let (st', result) := handle_location_query py_repr tp_format_response g st entities in
  (forall k, k <> "search_terms" ->
     dict_get k (follow_up_context st') = dict_get k (follow_up_context st)) /\
  (forall response, result = inr response ->
     dict_get "information" response =
       Some (PList (map PDict (flat_map (search_by_text py_repr g) entities)))).
Proof.
  intros Hg. unfold handle_location_query.
  destruct (location_loop_no_id g entities [] (follow_up_context st) Hg) as [H1 H2].
  destruct (location_loop py_repr g entities [] (follow_up_context st)) as [data fuc].
  simpl in H1, H2. subst data.
  destruct (tp_format_response _ _); simpl; split; auto; intros response Hr; [discriminate|].
  injection Hr as <-. reflexivity.
Qed.

End Providers.

Definition orb_state0 : OrbState := mkOrbState None None [] [].

Lemma process_query_procedural_falls_back_witness :
  c_type (mkClassification PROCEDURAL ["change campus"] None) = PROCEDURAL /\
  snd (process_query (fun _ => "") (fun _ _ => inr "") (fun _ => inr "") (fun l => l)
         Build.build_graph orb_state0 "How do I change campus?" "t"
         (mkClassification PROCEDURAL ["change campus"] None)) =
  inr (handle_fallback "How do I change campus?" ["change campus"] ["change campus"]).
Proof.
  split; [reflexivity|]. now apply process_query_procedural_falls_back.
Defined.

Lemma process_query_comparative_key_error_witness :
  c_type (mkClassification COMPARATIVE ["Delhi-NCR"] (Some (mkExtracted None None ["fees"] []))) =
    COMPARATIVE /\
  snd (process_query (fun _ => "") (fun _ _ => inr "") (fun _ => inr "") (fun l => l)
         Build.build_graph orb_state0 "Compare the fees" "t"
         (mkClassification COMPARATIVE ["Delhi-NCR"] (Some (mkExtracted None None ["fees"] [])))) =
  inl (KeyErr "campuses").
Proof.
  split; [reflexivity|]. now apply process_query_comparative_key_error.
Defined.

Lemma process_query_factual_none_reference_witness :
  c_type (mkClassification FACTUAL ["Tech Park"] (Some (mkExtracted None (Some "Chennai") [] []))) =
    FACTUAL /\
  c_context (mkClassification FACTUAL ["Tech Park"] (Some (mkExtracted None (Some "Chennai") [] []))) =
    Some (mkExtracted None (Some "Chennai") [] []) /\
  (time_reference (mkExtracted None (Some "Chennai") [] []) = None \/
   location_reference (mkExtracted None (Some "Chennai") [] []) = None) /\
  snd (process_query (fun _ => "") (fun _ _ => inr "") (fun _ => inr "") (fun l => l)
         Build.build_graph orb_state0 "What is Tech Park?" "t"
         (mkClassification FACTUAL ["Tech Park"] (Some (mkExtracted None (Some "Chennai") [] [])))) =
  inl (TypeErr "'NoneType' object is not iterable").
Proof.
  split; [reflexivity|]. split; [reflexivity|]. split; [left; reflexivity|].
  apply (process_query_factual_none_reference _ _ _ _ _ _ _ _ _
           (mkExtracted None (Some "Chennai") [] [])); [reflexivity|reflexivity|left; reflexivity].
Defined.

Lemma process_query_factual_raises_without_ids_witness :
  c_type (mkClassification FACTUAL ["Tech Park"] (Some (mkExtracted (Some "now") (Some "Chennai") [] []))) =
    FACTUAL /\
  (forall n, In n (g_nodes Build.build_graph) -> dict_get "id" (snd n) = None) /\
  snd (process_query (fun _ => "") (fun _ _ => inr "") (fun _ => inr "") (fun l => l)
         Build.build_graph orb_state0 "What is Tech Park?" "t"
         (mkClassification FACTUAL ["Tech Park"] (Some (mkExtracted (Some "now") (Some "Chennai") [] [])))) =
  inl (AttributeErr "'list' object has no attribute 'lower'").
Proof.
  split; [reflexivity|]. split; [exact KGRelFacts.build_graph_no_id|].
  exact (process_query_factual_raises_without_ids (fun _ => "") (fun _ _ => inr "") (fun _ => inr "")
           (fun l => l) Build.build_graph orb_state0 "What is Tech Park?" "t"
           (mkClassification FACTUAL ["Tech Park"] (Some (mkExtracted (Some "now") (Some "Chennai") [] [])))
           eq_refl KGRelFacts.build_graph_no_id).
Defined.

Lemma handle_location_query_text_search_witness :
  (forall n, In n (g_nodes Build.build_graph) -> dict_get "id" (snd n) = None) /\
  let (st', result) := handle_location_query (fun _ => "") (fun _ _ => inr "") Build.build_graph
                         orb_state0 ["Tech Park"] in
  (forall k, k <> "search_terms" ->
     dict_get k (follow_up_context st') = dict_get k (follow_up_context orb_state0)) /\
  (forall response, result = inr response ->
     dict_get "information" response =
       Some (PList (map PDict (flat_map (search_by_text (fun _ => "") Build.build_graph) ["Tech Park"])))).
Proof.
  split; [exact KGRelFacts.build_graph_no_id|].
  exact (handle_location_query_text_search (fun _ => "") (fun _ _ => inr "") Build.build_graph
           orb_state0 ["Tech Park"] KGRelFacts.build_graph_no_id).
Defined.


Lemma dedup_acc_nodup (seen l : list string) : NoDup (KGRel.dedup_acc seen l).
Proof.
  revert seen. induction l as [|x l IH]; intros seen; simpl; [constructor|].
  destruct (existsb (String.eqb x) seen); auto.
  constructor; auto. intros Hx. apply KGRelFacts.dedup_acc_not_seen in Hx.
  simpl in Hx. rewrite String.eqb_refl in Hx. discriminate.
Qed.

Lemma In_firstn' {A} (n : nat) (l : list A) (x : A) : In x (firstn n l) -> In x l.
Proof. intros H. rewrite <- (firstn_skipn n l). apply in_or_app. now left. Qed.

Lemma NoDup_firstn' {A} (n : nat) (l : list A) : NoDup l -> NoDup (firstn n l).
Proof.
  revert l. induction n as [|n IH]; intros l Hl; simpl; [constructor|].
  destruct l as [|x l]; [constructor|]. inversion Hl as [|? ? Hx Hl']; subst.
  constructor; auto. intros H. now apply Hx, (In_firstn' n).
Qed.

(** X22. [find_similar_questions] returns at most 3 suggestions, with no
    repeats. When the lowercased query contains ["where"], every suggestion
    comes from the ['where'] group, whatever else the query mentions. *)
Theorem find_similar_questions_bounded (query : string) :
  NoDup (find_similar_questions query) /\
  (length (find_similar_questions query) <= 3)%nat /\
  (str_in "where" (str_lower query) = true ->
   forall s, In s (find_similar_questions query) ->
   In s ["What are the different SRM campuses?";
         "Where is SRM Kattankulathur campus located?";
         "How to reach SRM main campus?";
         "What facilities are available in Tech Park?";
         "Where is the Central Library located?";
         "What are the hostel facilities?"]).
Proof.
  unfold find_similar_questions. cbv zeta. split; [|split].
  - apply NoDup_firstn', dedup_acc_nodup.
  - apply firstn_le_length.
  - intros Hw s Hs. rewrite Hw in Hs.
    apply In_firstn', KGRelFacts.dedup_acc_incl in Hs.
    destruct (str_in "srm" (str_lower query)), (any_in ["tech park"; "library"; "hostel"] (str_lower query));
      simpl in Hs |- *; tauto.
Qed.

(** X23. A query without ["where"] but with ["how"] and an admission word
    ("admission", "apply", "join") gets exactly the three admission
    suggestions. The transport suggestions for ["reach"] come after them
    and are cut by the limit of 3. *)
Theorem find_similar_questions_how_admission (query : string) :
  str_in "where" (str_lower query) = false ->
  str_in "how" (str_lower query) = true ->
  any_in ["admission"; "apply"; "join"] (str_lower query) = true ->
  find_similar_questions query =
  ["How to apply for admission at SRM?";
   "What are the admission requirements?";
   "How to apply for international admission?"].
Proof.
  intros Hw Hh Ha. unfold find_similar_questions. cbv zeta.
  rewrite Hw, Hh, Ha. destruct (str_in "reach" (str_lower query)); reflexivity.
Qed.

Lemma find_similar_questions_how_admission_witness :
  str_in "where" (str_lower "How do I apply, and how do I reach the campus?") = false /\
  str_in "how" (str_lower "How do I apply, and how do I reach the campus?") = true /\
  any_in ["admission"; "apply"; "join"] (str_lower "How do I apply, and how do I reach the campus?") = true /\
  find_similar_questions "How do I apply, and how do I reach the campus?" =
  ["How to apply for admission at SRM?";
   "What are the admission requirements?";
   "How to apply for international admission?"].
Proof.
  split; [reflexivity|]. split; [reflexivity|]. split; [reflexivity|].
  apply find_similar_questions_how_admission; reflexivity.
Defined.

End OrbFacts.

(* ================================================================== *)
(** ** C1, C5 and C6: the code slips *)

Module KGIdFacts.
Import KG KGFacts KGRel KGRelFacts.

Lemma dict_set_in {V} (k : string) (v : V) (d : Dict V) (x : string * V) :
  In x (dict_set k v d) -> In x d \/ x = (k, v).
Proof.
  induction d as [|[k' v'] d IH]; simpl.
  - intros [<-|[]]. now right.
  - destruct (String.eqb k k') eqn:E; simpl; intros [H|H].
    + apply String.eqb_eq in E. subst. now right.
    + left. now right.
    + left. now left.
    + destruct (IH H); auto.
Qed.

Lemma dict_get_in {V} (k : string) (v : V) (d : Dict V) :
  dict_get k d = Some v -> In (k, v) d.
Proof.
  induction d as [|[k' v'] d IH]; simpl; [discriminate|].
  destruct (String.eqb k k') eqn:E; intros H.
  - apply String.eqb_eq in E. injection H as <-. subst. now left.
  - right. now apply IH.
Qed.

Lemma dict_update_get_none {V} (k : string) (d kvs : Dict V) :
  dict_get k d = None -> dict_get k kvs = None -> dict_get k (dict_update d kvs) = None.
Proof.
  intros Hd Hk. rewrite dict_update_get_other; [exact Hd|].
  now apply dict_get_none_not_in.
Qed.

Lemma add_node_no_id (g : Graph) (n : string) (attr : Dict PyVal) :
  (forall x, In x (g_nodes g) -> dict_get "id" (snd x) = None) ->
  dict_get "id" attr = None ->
  forall x, In x (g_nodes (add_node g n attr)) -> dict_get "id" (snd x) = None.
Proof.
  intros Hg Ha x. unfold add_node.
  destruct (dict_get n (g_nodes g)) as [d|] eqn:E; simpl; intros Hx.
  - apply dict_set_in in Hx as [Hx| ->]; [now apply Hg|]. simpl.
    apply dict_update_get_none; [|exact Ha].
    exact (Hg (n, d) (dict_get_in _ _ _ E)).
  - apply in_app_or in Hx as [Hx|[<-|[]]]; [now apply Hg|]. simpl.
    now apply dict_update_get_none.
Qed.

(** C1 (code bug). [query(t, {"id": id})] misses an entity that
    [add_entity] has just stored with type [t]: [query] compares the filter
    with the stored attributes, and the node id is not one of them (it only
    appears in the returned record). So on a graph whose nodes have no
    ['id'] attribute, adding an entity without an ['id'] attribute leaves
    the id query empty, instead of returning that one entity. *)
Theorem query_by_id_misses_added_entity (g g' : Graph) (i t : string) (a : Dict PyVal) :
  (forall n, In n (g_nodes g) -> dict_get "id" (snd n) = None) ->
  dict_get "id" a = None ->
  add_entity g i t a = inr g' ->
  (exists attrs, dict_get i (g_nodes g') = Some attrs /\ dict_get "type" attrs = Some (PStr t)) /\
  query g' t [("id", PStr i)] = [].
Proof.
  intros Hg Ha Hadd. unfold add_entity in Hadd.
  destruct (existsb _ _) eqn:E; inversion Hadd as [Hg']; clear Hadd; subst g'.
  split.
  - eexists. split; [apply add_node_get|]. simpl.
    rewrite dict_update_get_other; [apply dict_get_set_same|].
    intros Hin. assert (Hc : existsb (fun k => existsb (String.eqb k) reserved_kwargs) (map fst a) = true).
    { apply existsb_exists. exists "type". split; [exact Hin|reflexivity]. }
    congruence.
  - apply query_id_filter_nil, add_node_no_id; [exact Hg|]. simpl. exact Ha.
Qed.

(** C1 witness: the spec's example, ["Sikkim"] added as a campus to the
    empty graph; the unfiltered query does return it. *)
Lemma query_by_id_misses_added_entity_witness :
  exists g',
    add_entity empty_graph "Sikkim" "campus" [("location", PStr "Gangtok")] = inr g' /\
    query g' "campus" [("id", PStr "Sikkim")] = [] /\
    query g' "campus" [] =
      [[("id", PStr "Sikkim"); ("type", PStr "campus"); ("location", PStr "Gangtok")]].
Proof.
  eexists. split; [reflexivity|]. split; [|reflexivity].
  exact (proj2 (query_by_id_misses_added_entity empty_graph
                  (add_node empty_graph "Sikkim" [("type", PStr "campus"); ("location", PStr "Gangtok")])
                  "Sikkim" "campus" [("location", PStr "Gangtok")]
                  (fun n (H : In n []) => match H with end) eq_refl eq_refl)).
Defined.

End KGIdFacts.

Module EngineConf.
Import Session Engine EngineFacts.

(** C5 (code bug). An exact id hit under an intent other than
    ['location'], ['description'], ['facilities'] and ['contact'] (such as
    the default ['general'] of [detect_intent]) copies the entity's
    non-dict attributes over the response. An entity with a number
    ['confidence'] attribute [c] therefore yields confidence [c], not 1.0,
    and when [c <= 0.6] the loop of [_find_best_match] passes over it as
    if it had missed. *)
Theorem get_entity_info_confidence_attribute (kb : KB) (entity intent category : string)
    (data : Dict PyVal) (c : Q) (rest : list string) :
  kb_find kb entity = Some (category, data) ->
  ~ In intent ["location"; "description"; "facilities"; "contact"] ->
  NoDup (map fst data) ->
  In ("confidence", PNum c) data ->
  exists r,
    get_entity_info kb entity intent = inr r /\
    dict_get "confidence" r = Some (PNum c) /\
    confident r = inr (NLU.Qltb acceptance_threshold c) /\
    (Qle_bool c acceptance_threshold = true ->
     first_confident kb (entity :: rest) intent = first_confident kb rest intent).
Proof.
  intros Hfind Hint Hnd Hin.
  assert (Hne : forall s, In s ["location"; "description"; "facilities"; "contact"] ->
                          String.eqb intent s = false)
    by (intros s Hs; apply String.eqb_neq; intros ->; contradiction).
  set (r := dict_update [("type", PStr intent); ("entity", PStr entity); ("confidence", PNum 1)]
              (filter (fun kv => negb (existsb (String.eqb (fst kv)) ["id"; "type"])
                                 && negb (is_dict (snd kv))) data)).
  assert (Hr : get_entity_info kb entity intent = inr r).
  { unfold get_entity_info. rewrite Hfind.
    rewrite !Hne by (simpl; tauto). reflexivity. }
  assert (Hc : dict_get "confidence" r = Some (PNum c)).
  { apply dict_update_get_in; [now apply KGFacts.NoDup_map_filter|].
    apply filter_In. split; [exact Hin|reflexivity]. }
  assert (Hconf : confident r = inr (NLU.Qltb acceptance_threshold c))
    by (unfold confident; now rewrite Hc).
  exists r. split; [exact Hr|]. split; [exact Hc|]. split; [exact Hconf|].
  intros Hle. simpl. rewrite Hr. simpl. rewrite Hconf. simpl.
  unfold NLU.Qltb. now rewrite Hle.
Qed.

(** C5 witness: "Tech Park" with a ['confidence'] attribute of 0.3, asked
    under the ['general'] intent. *)
Lemma get_entity_info_confidence_attribute_witness :
  exists r,
    get_entity_info
      [("locations", [("Tech Park", [("description", PStr "A research park");
                                     ("confidence", PNum (3 # 10))])])] "Tech Park" "general" = inr r /\
    dict_get "confidence" r = Some (PNum (3 # 10)) /\
    confident r = inr false.
Proof.
  destruct (get_entity_info_confidence_attribute
              [("locations", [("Tech Park", [("description", PStr "A research park");
                                             ("confidence", PNum (3 # 10))])])]
              "Tech Park" "general" "locations"
              [("description", PStr "A research park"); ("confidence", PNum (3 # 10))] (3 # 10) []
              eq_refl
              ltac:(simpl; intuition discriminate)
              ltac:(simpl; constructor; [simpl; intuition discriminate|constructor; [simpl; tauto|constructor]])
              ltac:(simpl; tauto))
    as (r & H1 & H2 & H3 & _).
  exists r. split; [exact H1|]. split; [exact H2|]. exact H3.
Defined.

End EngineConf.

Module RankerFacts.

Lemma in_skipn' {A} (n : nat) (l : list A) (x : A) : In x (skipn n l) -> In x l.
Proof. intros H. rewrite <- (firstn_skipn n l). apply in_or_app. now right. Qed.

Lemma slice_last_incl {A} (k : Z) (l : list A) (x : A) : In x (NLU.slice_last k l) -> In x l.
Proof. unfold NLU.slice_last. apply in_skipn'. Qed.

Lemma slice_last_zero {A} (l : list A) : NLU.slice_last 0 l = l.
Proof. unfold NLU.slice_last. simpl. rewrite Z.min_l by lia. reflexivity. Qed.

(** C6 (code bug). [find_best_matches] returns the slice
    [argsort()[-top_k:]] reversed. With [top_k = 0] the slice [[-0:]] is
    the whole list, so every candidate is returned, more than [top_k]. Two
    candidates come out in the reverse of their order in argsort's result,
    so with a stable argsort (numpy's sort on short arrays) the later of two
    equally similar candidates comes first, not the earlier one. *)
Theorem find_best_matches_reverses_argsort (cos_sim : string -> string -> option Q)
    (argsort : list Q -> list nat) (query : string) (candidates : list string) (sims : list Q) :
  NLU.omap_all (cos_sim query) candidates = Some sims ->
  length (argsort sims) = length sims ->
  Forall (fun i => (i < length sims)%nat) (argsort sims) ->
  (forall top_k,
     NLU.find_best_matches cos_sim argsort query candidates top_k =
       map (fun i => (nth i candidates "", nth i sims 0)) (rev (NLU.slice_last top_k (argsort sims)))) /\
  NLU.find_best_matches cos_sim argsort query candidates 0 =
    map (fun i => (nth i candidates "", nth i sims 0)) (rev (argsort sims)) /\
  length (NLU.find_best_matches cos_sim argsort query candidates 0) = length candidates /\
  (forall top_k pre mid post i j,
     NLU.slice_last top_k (argsort sims) = pre ++ i :: mid ++ j :: post ->
     exists pre' mid' post',
       NLU.find_best_matches cos_sim argsort query candidates top_k =
         pre' ++ (nth j candidates "", nth j sims 0) :: mid' ++ (nth i candidates "", nth i sims 0) :: post').
Proof.
  intros Hsims Hlen Hrange.
  pose proof (omap_all_length _ _ _ Hsims) as Hn.
  assert (Hall : forall top_k,
     NLU.find_best_matches cos_sim argsort query candidates top_k =
       map (fun i => (nth i candidates "", nth i sims 0)) (rev (NLU.slice_last top_k (argsort sims)))).
  { intros top_k. unfold NLU.find_best_matches. rewrite Hsims.
    rewrite (omap_all_map _ (fun i => (nth i candidates "", nth i sims 0))); [reflexivity|].
    intros i Hi. apply in_rev, slice_last_incl in Hi.
    rewrite Forall_forall in Hrange. specialize (Hrange i Hi).
    rewrite (nth_error_nth' candidates "") by lia.
    rewrite (nth_error_nth' sims 0) by lia. reflexivity. }
  split; [exact Hall|]. split; [|split].
  - now rewrite Hall, slice_last_zero.
  - rewrite Hall, slice_last_zero, length_map, length_rev. lia.
  - intros top_k pre mid post i j Hs. rewrite Hall, Hs.
    rewrite !rev_app_distr. simpl. rewrite !rev_app_distr. simpl.
    rewrite !map_app. simpl.
    exists (map (fun i => (nth i candidates "", nth i sims 0)) (rev post)),
           (map (fun i => (nth i candidates "", nth i sims 0)) (rev mid)),
           (map (fun i => (nth i candidates "", nth i sims 0)) (rev pre)).
    now rewrite <- !app_assoc.
Qed.

(** C6 witness: two candidates with equal similarity; the stable argsort
    keeps them in input order, and the result lists ["b"] first for
    [top_k = 0] as for [top_k = 3]. *)
Lemma find_best_matches_reverses_argsort_witness :
  NLU.argsort_stable [0; 0] = [0; 1]%nat /\
  NLU.find_best_matches (fun _ _ => Some 0) NLU.argsort_stable "q" ["a"; "b"] 0 =
    [("b", 0); ("a", 0)] /\
  NLU.find_best_matches (fun _ _ => Some 0) NLU.argsort_stable "q" ["a"; "b"] 3 =
    [("b", 0); ("a", 0)].
Proof.
  destruct (find_best_matches_reverses_argsort (fun _ _ => Some 0) NLU.argsort_stable "q" ["a"; "b"]
              [0; 0] eq_refl eq_refl
              ltac:(vm_compute; repeat (apply Forall_cons; [lia|]); apply Forall_nil))
    as (Hall & H0 & _).
  split; [reflexivity|]. split; [rewrite H0; reflexivity|].
  rewrite (Hall 3%Z). reflexivity.
Defined.

End RankerFacts.
